(** * Retry loop of the Google Site Verification domain resource

    A shallow embedding of [internal/provider/domain_resource.go] (the
    version with per-operation timeouts) and of the token data sources,
    together with the properties of the create / delete / import
    transitions.

    Go strings are byte sequences: they are modelled by [string]
    (a list of [ascii]).  A [time.Duration] and an instant are integer
    numbers of nanoseconds. *)

From Stdlib Require Import ZArith NArith Bool List String Ascii Lia.
Import ListNotations.

Local Open Scope string_scope.
Local Open Scope list_scope.
Local Open Scope Z_scope.

(* ================================================================== *)
(** ** The Go library pieces the resource relies on *)
(* ================================================================== *)

Module strings.

(** [strings.HasPrefix]. *)
Fixpoint HasPrefix (s p : string) {struct p} : bool :=
  match p with
  | EmptyString => true
  | String c p' =>
      match s with
      | EmptyString => false
      | String d s' => Ascii.eqb c d && HasPrefix s' p'
      end
  end.

(** [s[n:]] for [n <= len(s)]. *)
Fixpoint drop (n : nat) (s : string) : string :=
  match n with
  | O => s
  | S n' => match s with EmptyString => EmptyString | String _ s' => drop n' s' end
  end.

(** [strings.TrimPrefix]: [s] without the leading [p], or [s] itself
    when it does not start with [p]. *)
Definition TrimPrefix (s p : string) : string :=
  if HasPrefix s p then drop (String.length p) s else s.

(** [strings.Contains]: [sub] occurs at some offset of [s]. *)
Fixpoint Contains (s sub : string) : bool :=
  HasPrefix s sub ||
  match s with
  | EmptyString => false
  | String _ s' => Contains s' sub
  end.

End strings.

Module url.

(** The two escaping modes of [net/url] that concern an opaque
    identifier: [QueryUnescape] runs [unescape] in mode
    [encodeQueryComponent], [PathUnescape] in mode
    [encodePathSegment]. *)
Inductive encoding := encodePathSegment | encodeQueryComponent.

Definition ishex (c : ascii) : bool :=
  let n := N_of_ascii c in
  ((48 <=? n) && (n <=? 57) || (97 <=? n) && (n <=? 102) || (65 <=? n) && (n <=? 70))%N.

Definition unhex (c : ascii) : N :=
  let n := N_of_ascii c in
  (if (48 <=? n) && (n <=? 57) then n - 48
   else if (97 <=? n) && (n <=? 102) then n - 97 + 10
   else if (65 <=? n) && (n <=? 70) then n - 65 + 10
   else 0)%N.

(** [s[:3]] when [len(s) > 3], else [s]. *)
Fixpoint take (n : nat) (s : string) : string :=
  match n, s with
  | S n', String c s' => String c (take n' s')
  | _, _ => EmptyString
  end.

(** First loop of [unescape]: every ['%'] must be followed by two
    hexadecimal digits; the offending (at most three byte) fragment is
    the [EscapeError]. *)
Fixpoint check_escapes (s : string) : option string :=
  match s with
  | EmptyString => None
  | String c rest =>
      if Ascii.eqb c "%" then
        match rest with
        | String a (String b rest') =>
            if ishex a && ishex b then check_escapes rest' else Some (take 3 s)
        | _ => Some (take 3 s)
        end
      else check_escapes rest
  end.

(** Second loop of [unescape]: builds the decoded string. *)
Fixpoint decode (mode : encoding) (s : string) : string :=
  match s with
  | EmptyString => EmptyString
  | String c rest =>
      if Ascii.eqb c "%" then
        match rest with
        | String a (String b rest') =>
            String (ascii_of_N (N.lor (N.shiftl (unhex a) 4) (unhex b))) (decode mode rest')
        | _ => String c (decode mode rest)
        end
      else if Ascii.eqb c "+" then
        match mode with
        | encodeQueryComponent => String " " (decode mode rest)
        | encodePathSegment => String "+" (decode mode rest)
        end
      else String c (decode mode rest)
  end.

(** [unescape]: [inl] is the decoded string, [inr] the fragment of the
    [EscapeError]. *)
Definition unescape (s : string) (mode : encoding) : string + string :=
  match check_escapes s with
  | Some bad => inr bad
  | None => inl (decode mode s)
  end.

Definition QueryUnescape (s : string) : string + string := unescape s encodeQueryComponent.
Definition PathUnescape (s : string) : string + string := unescape s encodePathSegment.

End url.

(** Go error values.  [errors.As] walks the chain that [Unwrap] spans;
    a [*googleapi.Error] carries the HTTP status, the server message and
    the error it wraps (its [Unwrap] result, [nil] when there is none). *)
Inductive error :=
| nil_error
| errorString (s : string)
| EscapeError (s : string)
| wrapError (msg : string) (err : error)
| googleapiError (Code : Z) (Message : string) (err : error).

Module errors.

(** [Unwrap]. *)
Definition Unwrap (e : error) : error :=
  match e with
  | wrapError _ e' => e'
  | googleapiError _ _ e' => e'
  | _ => nil_error
  end.

(** [errors.As(err, &apierr)] for a target of type [*googleapi.Error]:
    the first such error of the chain, as its [(Code, Message)]. *)
Fixpoint As (e : error) : option (Z * string) :=
  match e with
  | nil_error => None
  | errorString _ => None
  | EscapeError _ => None
  | wrapError _ e' => As e'
  | googleapiError c m _ => Some (c, m)
  end.

(** The chain of an error: the error, what it unwraps to, and so on. *)
Fixpoint chain (e : error) : list error :=
  match e with
  | nil_error => []
  | errorString _ => [e]
  | EscapeError _ => [e]
  | wrapError _ e' => e :: chain e'
  | googleapiError _ _ e' => e :: chain e'
  end.

Definition is_googleapi (e : error) : bool :=
  match e with googleapiError _ _ _ => true | _ => false end.

Definition is_nil (e : error) : bool :=
  match e with nil_error => true | _ => false end.

End errors.

Definition context_DeadlineExceeded : error := errorString "context deadline exceeded".
Definition context_Canceled : error := errorString "context canceled".

(* ================================================================== *)
(** ** Package-level values of the provider *)
(* ================================================================== *)

Definition Duration := Z.
Definition Time := Z.

Definition Second : Duration := 1000000000.

Definition resourceType : string := "INET_DOMAIN".
Definition verificationMethod : string := "DNS_TXT".

Definition errTokenNotFound : string :=
  "The necessary verification token could not be found on your site.".
Definition errTokenExists : string :=
  "You cannot unverify your ownership of this site until your verification token (meta tag, HTML file, Google Analytics tracking code, Google Tag Manager container code, or DNS record) has been removed.".
Definition sleepSeconds : Duration := 60 * Second.

(** [checkErr]. *)
Definition checkErr (err : error) (msg : string) : bool :=
  match errors.As err with
  | Some (Code, Message) => (Code =? 400) && strings.Contains Message msg
  | None => false
  end.

(* ================================================================== *)
(** ** The plugin framework and the API client, as far as the resource
       uses them *)
(* ================================================================== *)

Module types.

(** [types.String] of the plugin framework. *)
Record String := { Unknown : bool; Null : bool; Value : string }.

(** The literal [types.String{Value: v}]. *)
Definition StringValue (v : string) : String :=
  {| Unknown := false; Null := false; Value := v |}.

End types.

Module timeouts.

(** The [timeouts] block held in a [types.Object].  Each attribute is
    given as the duration its text parses to; [None] stands for an
    attribute that is absent or is not a duration, for which the
    library answers the default it is handed. *)
Record Object := {
  create : option Duration;
  read : option Duration;
  delete : option Duration
}.

(** The zero [types.Object]: no attribute. *)
Definition unset : Object := {| create := None; read := None; delete := None |}.

Definition getTimeout (configured : option Duration) (def : Duration) : Duration :=
  match configured with Some d => d | None => def end.

Definition Create (obj : Object) (def : Duration) : Duration := getTimeout (create obj) def.
Definition Read (obj : Object) (def : Duration) : Duration := getTimeout (read obj) def.
Definition Delete (obj : Object) (def : Duration) : Duration := getTimeout (delete obj) def.

End timeouts.

Module diag.

Inductive Severity := SeverityError | SeverityWarning.

(** An operand of [fmt.Sprintf]. *)
Inductive operand := OpString (s : string) | OpError (e : error).

(** A diagnostic.  The detail is kept as the [fmt.Sprintf] call that
    builds it: the format and its operands. *)
Record Diagnostic := {
  severity : Severity;
  Summary : string;
  Detail : string * list operand
}.

Definition Diagnostics := list Diagnostic.

Definition is_error (d : Diagnostic) : bool :=
  match severity d with SeverityError => true | SeverityWarning => false end.

Definition HasError (ds : Diagnostics) : bool := existsb is_error ds.

(** [AddError], on an accumulator that holds no error yet (so the new
    diagnostic is never a duplicate and is always appended). *)
Definition AddError (ds : Diagnostics) (summary : string) (detail : string * list operand)
  : Diagnostics :=
  ds ++ [ {| severity := SeverityError; Summary := summary; Detail := detail |} ].

End diag.

Module context.

(** A context, as the instant at which its [Done] channel closes
    (deadline or cancellation); [None] when it never does. *)
Record Context := { done_at : option Time }.

Definition Background : Context := {| done_at := None |}.

(** [context.WithTimeout(parent, timeout)] called at instant [now]. *)
Definition WithTimeout (parent : Context) (now : Time) (timeout : Duration) : Context :=
  {| done_at := Some (match done_at parent with
                      | Some t => Z.min t (now + timeout)
                      | None => now + timeout
                      end) |}.

(** The two cases of
    [select { case <-ctx.Done(): ...; case <-time.After(d): }]. *)
Inductive Case := Done | After.

(** Which case the [select] entered at [now] runs: the channel that is
    ready first; [tie] is the runtime's choice when both become ready
    at the same instant. *)
Definition select (tie : Case) (ctx : Context) (now : Time) (d : Duration) : Case :=
  match done_at ctx with
  | None => After
  | Some t => if t <? now + d then Done
              else if now + d <? t then After
              else tie
  end.

(** The instant at which the [Done] case is entered. *)
Definition done_time (ctx : Context) (now : Time) : Time :=
  match done_at ctx with
  | Some t => Z.max now t
  | None => now
  end.

End context.

Module siteverification.

Record Site := { Identifier : string; Type_ : string }.

(** [SiteVerificationWebResourceResource]. *)
Record WebResource := { Id : string; ResourceSite : Site }.

(** [SiteVerificationWebResourceGettokenRequest] and its response. *)
Record GettokenRequest := { RequestSite : Site; VerificationMethod : string }.
Record GettokenResponse := { Method : string; Token : string }.

(** What [Do()] gives back: [(result, err)], after [took] nanoseconds. *)
Record Call (A : Type) := { took : N; result : A; err : error }.
Arguments took {A} _.
Arguments result {A} _.
Arguments err {A} _.

(** The API client.  Every call receives the context it is issued
    under and the instant it is issued at; [Insert] and [Delete] also
    receive how many calls of the same operation came before, so that a
    client can answer the n-th attempt differently. *)
Record Service := {
  Insert : context.Context -> Time -> nat -> string -> WebResource -> Call WebResource;
  Get : context.Context -> Time -> string -> Call WebResource;
  Delete : context.Context -> Time -> nat -> string -> Call unit;
  GetToken : context.Context -> Time -> GettokenRequest -> Call GettokenResponse
}.

End siteverification.

(* ================================================================== *)
(** ** The domain resource *)
(* ================================================================== *)

(** [DomainResourceModel]. *)
Record DomainResourceModel := {
  Domain : types.String;
  Token : types.String;
  Id : types.String;
  Timeouts : timeouts.Object
}.

(** The response of an operation: its diagnostics and the state it
    wrote ([None]: the null state). *)
Record Response := {
  Diagnostics : diag.Diagnostics;
  State : option DomainResourceModel
}.

(** The [return] (or the end of the function) an invocation left by. *)
Inductive Exit :=
| ExitDecodeModel   (* the plan or prior state could not be read *)
| ExitCtxDone       (* [case <-ctx.Done(): return] *)
| ExitClientError   (* after [AddError] for an API error *)
| ExitUrlDecode     (* after [AddError] for [url.QueryUnescape] *)
| ExitEnd.          (* end of the function *)

(** An invocation: the response, with the instant it returned at, the
    number of API attempts and of completed backoff sleeps, and the exit
    taken. *)
Record Run := {
  response : Response;
  returned_at : Time;
  attempts : nat;
  sleeps : nat;
  exit : Exit
}.

(** A request: what [req.Plan.Get] / [req.State.Get] decodes. *)
Record Request := { Get_ : diag.Diagnostics * DomainResourceModel }.

Definition elapse (now : Time) (took : N) : Time := now + Z.of_N took.

Section DomainResource.

(** [r.srv], and the runtime's choice when both channels of a [select]
    become ready together (per attempt). *)
Variable srv : siteverification.Service.
Variable tie : nat -> context.Case.

Definition insert_body (data : DomainResourceModel) : siteverification.WebResource :=
  {| siteverification.Id := "";
     siteverification.ResourceSite :=
       {| siteverification.Identifier := types.Value (Domain data);
          siteverification.Type_ := resourceType |} |}.

(** The [for] loop of [Create]; [n] attempts were made before, the
    next one is issued at [now]. *)
Fixpoint Create_loop (fuel : nat) (ctx : context.Context) (data : DomainResourceModel)
    (diags : diag.Diagnostics) (now : Time) (n : nat) : option Run :=
  match fuel with
  | O => None
  | S fuel' =>
      let call := siteverification.Insert srv ctx now n verificationMethod (insert_body data) in
      let err := siteverification.err call in
      let now := elapse now (siteverification.took call) in
      if negb (errors.is_nil err) then
        if checkErr err errTokenNotFound then
          match context.select (tie n) ctx now sleepSeconds with
          | context.Done =>
              Some {| response := {| Diagnostics := diags; State := None |};
                      returned_at := context.done_time ctx now;
                      attempts := S n; sleeps := n; exit := ExitCtxDone |}
          | context.After =>
              Create_loop fuel' ctx data diags (now + sleepSeconds) (S n)
          end
        else
          Some {| response :=
                    {| Diagnostics :=
                         diag.AddError diags "Client Error"
                           ("Unable to create verification, got error: %s", [diag.OpError err]);
                       State := None |};
                  returned_at := now;
                  attempts := S n; sleeps := n; exit := ExitClientError |}
      else
        let result := siteverification.result call in
        match url.QueryUnescape (siteverification.Id result) with
        | inr bad =>
            Some {| response :=
                      {| Diagnostics :=
                           diag.AddError diags "Client Error"
                             ("failed to urldecode id %s, %s",
                              [diag.OpString (siteverification.Id result);
                               diag.OpError (EscapeError bad)]);
                         State := None |};
                    returned_at := now;
                    attempts := S n; sleeps := n; exit := ExitUrlDecode |}
        | inl id =>
            let data := {| Domain := Domain data; Token := Token data;
                           Id := types.StringValue id; Timeouts := Timeouts data |} in
            Some {| response := {| Diagnostics := diags; State := Some data |};
                    returned_at := now;
                    attempts := S n; sleeps := n; exit := ExitEnd |}
        end
  end.

(** An upper bound on the number of attempts a loop entered at [now]
    under [ctx] can make: every further attempt costs a full backoff
    sleep before the context is done. *)
Definition max_attempts (ctx : context.Context) (now : Time) : nat :=
  match context.done_at ctx with
  | Some t => S (Z.to_nat ((t - now) / sleepSeconds))
  | None => 0
  end.

(** The timeouts the three operations compute before their first call. *)
Definition createTimeout (data : DomainResourceModel) : Duration :=
  timeouts.Create (Timeouts data) (sleepSeconds * 5).
Definition readTimeout (data : DomainResourceModel) : Duration :=
  timeouts.Read (Timeouts data) (sleepSeconds * 5).
Definition deleteTimeout (data : DomainResourceModel) : Duration :=
  timeouts.Delete (Timeouts data) (sleepSeconds * 5).

(** [Create], invoked at [start] under the framework's context. *)
Definition Create (ctx : context.Context) (start : Time) (req : Request) : option Run :=
  let (diags, data) := Get_ req in
  if diag.HasError diags then
    Some {| response := {| Diagnostics := diags; State := None |};
            returned_at := start; attempts := 0; sleeps := 0; exit := ExitDecodeModel |}
  else
    let ctx := context.WithTimeout ctx start (createTimeout data) in
    Create_loop (max_attempts ctx start) ctx data diags start 0.

(** [Read]. *)
Definition Read (ctx : context.Context) (start : Time) (req : Request) : Run :=
  let (diags, data) := Get_ req in
  if diag.HasError diags then
    {| response := {| Diagnostics := diags; State := None |};
       returned_at := start; attempts := 0; sleeps := 0; exit := ExitDecodeModel |}
  else
    let ctx := context.WithTimeout ctx start (readTimeout data) in
    let call := siteverification.Get srv ctx start (types.Value (Id data)) in
    let err := siteverification.err call in
    let now := elapse start (siteverification.took call) in
    if negb (errors.is_nil err) then
      {| response :=
           {| Diagnostics :=
                diag.AddError diags "Client Error"
                  ("Unable to read verification, got error: %s", [diag.OpError err]);
              State := None |};
         returned_at := now; attempts := 1; sleeps := 0; exit := ExitClientError |}
    else
      {| response := {| Diagnostics := diags; State := Some data |};
         returned_at := now; attempts := 1; sleeps := 0; exit := ExitEnd |}.

(** [Update]: does nothing, so the response stays as the framework
    prepared it; no call is made. *)
Definition Update (ctx : context.Context) (start : Time) (prepared : Response) : Run :=
{| response := prepared;
   returned_at := start; attempts := 0; sleeps := 0; exit := ExitEnd |}.

(** The [for] loop of [Delete].  [Delete] never writes the state: the
    response keeps the prior state it was handed. *)
Fixpoint Delete_loop (fuel : nat) (ctx : context.Context) (data : DomainResourceModel)
    (diags : diag.Diagnostics) (now : Time) (n : nat) : option Run :=
  match fuel with
  | O => None
  | S fuel' =>
      let call := siteverification.Delete srv ctx now n (types.Value (Id data)) in
      let err := siteverification.err call in
      let now := elapse now (siteverification.took call) in
      if negb (errors.is_nil err) then
        if checkErr err errTokenExists then
          match context.select (tie n) ctx now sleepSeconds with
          | context.Done =>
              Some {| response := {| Diagnostics := diags; State := Some data |};
                      returned_at := context.done_time ctx now;
                      attempts := S n; sleeps := n; exit := ExitCtxDone |}
          | context.After =>
              Delete_loop fuel' ctx data diags (now + sleepSeconds) (S n)
          end
        else
          Some {| response :=
                    {| Diagnostics :=
                         diag.AddError diags "Client Error"
                           ("Unable to delete verification, got error: %s", [diag.OpError err]);
                       State := Some data |};
                  returned_at := now;
                  attempts := S n; sleeps := n; exit := ExitClientError |}
      else
        Some {| response := {| Diagnostics := diags; State := Some data |};
                returned_at := now;
                attempts := S n; sleeps := n; exit := ExitEnd |}
  end.

(** [Delete]. *)
Definition Delete (ctx : context.Context) (start : Time) (req : Request) : option Run :=
  let (diags, data) := Get_ req in
  if diag.HasError diags then
    Some {| response := {| Diagnostics := diags; State := Some data |};
            returned_at := start; attempts := 0; sleeps := 0; exit := ExitDecodeModel |}
  else
    let ctx := context.WithTimeout ctx start (deleteTimeout data) in
    Delete_loop (max_attempts ctx start) ctx data diags start 0.

(** [ImportState], for the identifier [req.ID]. *)
Definition ImportState (ctx : context.Context) (start : Time) (ID : string) : Run :=
  let call := siteverification.Get srv ctx start ID in
  let err := siteverification.err call in
  let now := elapse start (siteverification.took call) in
  if negb (errors.is_nil err) then
    {| response :=
         {| Diagnostics :=
              diag.AddError [] "Client Error"
                ("Unable to import verification, got error: %s", [diag.OpError err]);
            State := None |};
       returned_at := now; attempts := 1; sleeps := 0; exit := ExitClientError |}
  else
    let domain := strings.TrimPrefix ID "dns://" in
    let call := siteverification.GetToken srv ctx now
                  {| siteverification.RequestSite :=
                       {| siteverification.Identifier := domain;
                          siteverification.Type_ := resourceType |};
                     siteverification.VerificationMethod := verificationMethod |} in
    let err := siteverification.err call in
    let now := elapse now (siteverification.took call) in
    if negb (errors.is_nil err) then
      {| response :=
           {| Diagnostics :=
                diag.AddError [] "Client Error"
                  ("Unable to import verification, got error: %s", [diag.OpError err]);
              State := None |};
         returned_at := now; attempts := 2; sleeps := 0; exit := ExitClientError |}
    else
      {| response :=
           {| Diagnostics := [];
              State := Some {| Id := types.StringValue ID;
                               Domain := types.StringValue domain;
                               Token := types.StringValue
                                          (siteverification.Token (siteverification.result call));
                               Timeouts := timeouts.unset |} |};
         returned_at := now; attempts := 2; sleeps := 0; exit := ExitEnd |}.

End DomainResource.

(* ================================================================== *)
(** ** The token data sources *)
(* ================================================================== *)

Module datasource.

(** [DomainDataSourceModel] and [DNSTokenDataSourceModel]: the second
    has the [domain] attribute next to the computed [id]. *)
Record Model := {
  Domain : types.String;
  RecordType : types.String;
  RecordName : types.String;
  RecordValue : types.String;
  ID : types.String;
  Timeouts : timeouts.Object
}.

Record Outcome := {
  Diagnostics : diag.Diagnostics;
  State : option Model;
  deadline : option Time;      (* of the context made by [context.WithTimeout] *)
  call_ctx : context.Context;  (* the context the API call was issued under *)
  returned_at : Time
}.

Section Read.

Variable srv : siteverification.Service.

Definition gettoken (identifier : string) : siteverification.GettokenRequest :=
  {| siteverification.RequestSite :=
       {| siteverification.Identifier := identifier;
          siteverification.Type_ := resourceType |};
     siteverification.VerificationMethod := verificationMethod |}.

Definition readTimeout (data : Model) : Duration :=
  timeouts.Read (Timeouts data) (60 * Second).

(** [DNSTokenDataSource.Read]: the call is issued with [Context(ctx)]. *)
Definition DNSToken_Read (ctx : context.Context) (start : Time) (data : Model) : Outcome :=
  let ctx := context.WithTimeout ctx start (readTimeout data) in
  let call := siteverification.GetToken srv ctx start (gettoken (types.Value (Domain data))) in
  let err := siteverification.err call in
  let now := elapse start (siteverification.took call) in
  if negb (errors.is_nil err) then
    {| Diagnostics := diag.AddError [] "Client Error"
                        ("Unable to read DNS Token, got error: %s", [diag.OpError err]);
       State := None; deadline := context.done_at ctx; call_ctx := ctx; returned_at := now |}
  else
    {| Diagnostics := [];
       State := Some {| Domain := Domain data;
                        RecordType := types.StringValue "TXT";
                        RecordName := Domain data;
                        RecordValue := types.StringValue
                                         (siteverification.Token (siteverification.result call));
                        ID := Domain data;
                        Timeouts := Timeouts data |};
       deadline := context.done_at ctx; call_ctx := ctx; returned_at := now |}.

(** [DomainDataSource.Read]: the domain is the [id] attribute, and
    the call is issued by a bare [Do()], that is under the
    background context. *)
Definition Domain_Read (ctx : context.Context) (start : Time) (data : Model) : Outcome :=
  let ctx := context.WithTimeout ctx start (readTimeout data) in
  let call := siteverification.GetToken srv context.Background start
                (gettoken (types.Value (ID data))) in
  let err := siteverification.err call in
  let now := elapse start (siteverification.took call) in
  if negb (errors.is_nil err) then
    {| Diagnostics := diag.AddError [] "Client Error"
                        ("Unable to read DNS Token, got error: %s", [diag.OpError err]);
       State := None; deadline := context.done_at ctx;
       call_ctx := context.Background; returned_at := now |}
  else
    {| Diagnostics := [];
       State := Some {| Domain := Domain data;
                        RecordType := types.StringValue "TXT";
                        RecordName := ID data;
                        RecordValue := types.StringValue
                                         (siteverification.Token (siteverification.result call));
                        ID := ID data;
                        Timeouts := Timeouts data |};
       deadline := context.done_at ctx; call_ctx := context.Background; returned_at := now |}.

End Read.

End datasource.

(* ================================================================== *)
(** ** API clients used to exercise the resource *)
(* ================================================================== *)

Module stub.

(** A planned resource: the identifier is not known yet. *)
Definition model (domain : string) (t : timeouts.Object) : DomainResourceModel :=
  {| Domain := types.StringValue domain;
     Token := types.StringValue "google-site-verification=abc";
     Id := {| types.Unknown := true; types.Null := false; types.Value := "" |};
     Timeouts := t |}.

Definition request (m : DomainResourceModel) : Request := {| Get_ := ([], m) |}.

Import siteverification.

Definition no_site : Site := {| Identifier := ""; Type_ := "" |}.
Definition no_resource : WebResource := {| Id := ""; ResourceSite := no_site |}.
Definition no_token : GettokenResponse := {| Method := ""; Token := "" |}.

Definition ok {A} (d : N) (a : A) : Call A := {| took := d; result := a; err := nil_error |}.
Definition failed {A} (d : N) (a : A) (e : error) : Call A :=
  {| took := d; result := a; err := e |}.

Definition TokenNotFoundError : error := googleapiError 400 errTokenNotFound nil_error.
Definition TokenStillPresentError : error := googleapiError 400 errTokenExists nil_error.

(** A client that ignores its context: the first [fails] calls of [Insert]
    (of [Delete]) fail with [insert_err] (with [delete_err]), the next
    succeeds with identifier [id]; every call takes [d] nanoseconds.
    [Get] succeeds, and [GetToken] answers [token] for [domain] only. *)
Definition flaky (fails : nat) (d : N) (insert_err delete_err : error)
    (id domain token : string) : Service :=
  {| Insert := fun _ _ n _ body =>
       if (n <? fails)%nat then failed d no_resource insert_err
       else ok d {| Id := id; ResourceSite := ResourceSite body |};
     Get := fun _ _ i => ok d {| Id := i; ResourceSite := no_site |};
     Delete := fun _ _ n _ =>
       if (n <? fails)%nat then failed d tt delete_err else ok d tt;
     GetToken := fun _ _ req =>
       if String.eqb (Identifier (RequestSite req)) domain
       then ok d {| Method := VerificationMethod req; Token := token |}
       else failed d no_token (googleapiError 400 "invalid site" nil_error) |}.

(** A client whose [Insert] and [Delete] always fail with the given
    errors. *)
Definition failing (d : N) (insert_err delete_err : error) : Service :=
  {| Insert := fun _ _ _ _ _ => failed d no_resource insert_err;
     Get := fun _ _ i => ok d {| Id := i; ResourceSite := no_site |};
     Delete := fun _ _ _ _ => failed d tt delete_err;
     GetToken := fun _ _ _ => failed d no_token (errorString "unavailable") |}.

(** What the HTTP transport does with a context: a call that would
    outlast the context is cut when the context is done and fails with
    the context's error. *)
Definition cut {A} (ctx : context.Context) (now : Time) (c : Call A) : Call A :=
  match context.done_at ctx with
  | Some t =>
      if t <=? now then failed 0 (result c) context_DeadlineExceeded
      else if t <=? now + Z.of_N (took c)
           then failed (Z.to_N (t - now)) (result c) context_DeadlineExceeded
           else c
  | None => c
  end.

Definition honouring (s : Service) : Service :=
  {| Insert := fun ctx now n m body => cut ctx now (Insert s ctx now n m body);
     Get := fun ctx now i => cut ctx now (Get s ctx now i);
     Delete := fun ctx now n i => cut ctx now (Delete s ctx now n i);
     GetToken := fun ctx now req => cut ctx now (GetToken s ctx now req) |}.

Definition always (c : context.Case) : nat -> context.Case := fun _ => c.

End stub.

(* ================================================================== *)
(** ** Vocabulary of the statements *)
(* ================================================================== *)

(** The instant at which a loop entered at [now] with attempt [n] issues
    the attempt [k] places later, when every attempt in between takes
    [took_at] and is followed by a full backoff sleep. *)
Fixpoint clock (took_at : Time -> nat -> N) (now : Time) (n k : nat) : Time :=
  match k with
  | O => now
  | S k' => clock took_at (elapse now (took_at now n) + sleepSeconds) (S n) k'
  end.

(** The time the first [k] of these attempts take together. *)
Fixpoint spent (took_at : Time -> nat -> N) (now : Time) (n k : nat) : Z :=
  match k with
  | O => 0
  | S k' =>
      Z.of_N (took_at now n)
      + spent took_at (elapse now (took_at now n) + sleepSeconds) (S n) k'
  end.

(** A client honours contexts when no call outlasts the context it was
    issued under. *)
Definition honours (srv : siteverification.Service) : Prop :=
  (forall ctx t now n m body, context.done_at ctx = Some t ->
     elapse now (siteverification.took (siteverification.Insert srv ctx now n m body))
     <= Z.max now t) /\
  (forall ctx t now n id, context.done_at ctx = Some t ->
     elapse now (siteverification.took (siteverification.Delete srv ctx now n id))
     <= Z.max now t) /\
  (forall ctx t now id, context.done_at ctx = Some t ->
     elapse now (siteverification.took (siteverification.Get srv ctx now id))
     <= Z.max now t) /\
  (forall ctx t now req, context.done_at ctx = Some t ->
     elapse now (siteverification.took (siteverification.GetToken srv ctx now req))
     <= Z.max now t).

Section Attempts.

Variable srv : siteverification.Service.
Variable tie : nat -> context.Case.
Variable ctx : context.Context.
Variable data : DomainResourceModel.

(** The call of the attempt [n], issued at [now]. *)
Definition insert_at (now : Time) (n : nat) : siteverification.Call siteverification.WebResource :=
  siteverification.Insert srv ctx now n verificationMethod (insert_body data).

Definition delete_at (now : Time) (n : nat) : siteverification.Call unit :=
  siteverification.Delete srv ctx now n (types.Value (Id data)).

(** The instant at which the attempt [k] places after the one issued at
    [now] as attempt [n] is issued, when each attempt in between is
    followed by a full backoff sleep. *)
Definition insert_clock : Time -> nat -> nat -> Time :=
  clock (fun now n => siteverification.took (insert_at now n)).

Definition delete_clock : Time -> nat -> nat -> Time :=
  clock (fun now n => siteverification.took (delete_at now n)).

(** The result of the attempt [k] places after attempt [n]. *)
Definition insert_nth (now : Time) (n k : nat) :=
  insert_at (insert_clock now n k) (n + k).
Definition delete_nth (now : Time) (n k : nat) :=
  delete_at (delete_clock now n k) (n + k).

(** The backoff after that attempt runs to its end. *)
Definition insert_backoff_fits (now : Time) (n k : nat) : Prop :=
  context.select (tie (n + k)) ctx
    (elapse (insert_clock now n k) (siteverification.took (insert_nth now n k))) sleepSeconds
  = context.After.
Definition delete_backoff_fits (now : Time) (n k : nat) : Prop :=
  context.select (tie (n + k)) ctx
    (elapse (delete_clock now n k) (siteverification.took (delete_nth now n k))) sleepSeconds
  = context.After.

End Attempts.

(** Some API error of the chain has code 400 and a message that
    contains [msg]. *)
Definition chain_has_transient (e : error) (msg : string) : bool :=
  existsb (fun x => match x with
                    | googleapiError c m _ => (c =? 400) && strings.Contains m msg
                    | _ => false
                    end) (errors.chain e).

(** The API error [errors.As] stops at: the outermost one. *)
Definition first_api_error (e : error) : option error :=
  find errors.is_googleapi (errors.chain e).

(** What the loops do in the iteration whose call fails with an error
    that [checkErr] does not accept: they return from that iteration,
    with the error in a diagnostic, and do not sleep. *)
Definition create_stops_at srv tie ctx data diags now n : Prop :=
  forall fuel,
    let call := insert_at srv ctx data now n in
    Create_loop srv tie (S fuel) ctx data diags now n =
    Some {| response :=
              {| Diagnostics :=
                   diag.AddError diags "Client Error"
                     ("Unable to create verification, got error: %s",
                      [diag.OpError (siteverification.err call)]);
                 State := None |};
            returned_at := elapse now (siteverification.took call);
            attempts := S n; sleeps := n; exit := ExitClientError |}.

Definition delete_stops_at srv tie ctx data diags now n : Prop :=
  forall fuel,
    let call := delete_at srv ctx data now n in
    Delete_loop srv tie (S fuel) ctx data diags now n =
    Some {| response :=
              {| Diagnostics :=
                   diag.AddError diags "Client Error"
                     ("Unable to delete verification, got error: %s",
                      [diag.OpError (siteverification.err call)]);
                 State := Some data |};
            returned_at := elapse now (siteverification.took call);
            attempts := S n; sleeps := n; exit := ExitClientError |}.

(** What the iteration of the create loop does with an answer of
    [Insert] that is not the transient error. *)
Definition create_end (diags : diag.Diagnostics) (data : DomainResourceModel)
    (call : siteverification.Call siteverification.WebResource) : Response * Exit :=
  if errors.is_nil (siteverification.err call) then
    match url.QueryUnescape (siteverification.Id (siteverification.result call)) with
    | inl id =>
        ({| Diagnostics := diags;
            State := Some {| Domain := Domain data; Token := Token data;
                             Id := types.StringValue id; Timeouts := Timeouts data |} |},
         ExitEnd)
    | inr bad =>
        ({| Diagnostics :=
              diag.AddError diags "Client Error"
                ("failed to urldecode id %s, %s",
                 [diag.OpString (siteverification.Id (siteverification.result call));
                  diag.OpError (EscapeError bad)]);
            State := None |},
         ExitUrlDecode)
    end
  else
    ({| Diagnostics :=
          diag.AddError diags "Client Error"
            ("Unable to create verification, got error: %s",
             [diag.OpError (siteverification.err call)]);
        State := None |},
     ExitClientError).

(** The request [ImportState] sends for the token of [domain]. *)
Definition import_gettoken (domain : string) : siteverification.GettokenRequest :=
  {| siteverification.RequestSite :=
       {| siteverification.Identifier := domain; siteverification.Type_ := resourceType |};
     siteverification.VerificationMethod := verificationMethod |}.

(** A ['+'] read as a space. *)
Definition plus_to_space (c : ascii) : ascii := if Ascii.eqb c "+" then " "%char else c.

(** Every ['+'] replaced by a space. *)
Fixpoint spaces_for_plus (s : string) : string :=
  match s with
  | EmptyString => EmptyString
  | String c rest => String (plus_to_space c) (spaces_for_plus rest)
  end.

(** No ['%'] occurs. *)
Fixpoint no_percent (s : string) : bool :=
  match s with
  | EmptyString => true
  | String c rest => negb (Ascii.eqb c "%") && no_percent rest
  end.

(* ================================================================== *)
(** ** The resource before timeouts and retries *)
(* ================================================================== *)

(** [DNSResource], and the first [DomainResource] of
    [domain_resource.go], which is the same code: every operation is a
    single call under the context it is handed. *)
Module legacy.

(** [DNSResourceModel]. *)
Record Model := {
  Domain : types.String;
  Token : types.String;
  Id : types.String
}.

Record Response := {
  Diagnostics : diag.Diagnostics;
  State : option Model
}.

Section DNSResource.

Variable srv : siteverification.Service.

(** [Create]; the argument [plan] is what [req.Plan.Get] decodes. *)
Definition Create (ctx : context.Context) (start : Time)
    (plan : diag.Diagnostics * Model) : Response :=
let (diags, data) := plan in
if diag.HasError diags then {| Diagnostics := diags; State := None |}
else
  let call := siteverification.Insert srv ctx start 0 verificationMethod
                {| siteverification.Id := "";
                   siteverification.ResourceSite :=
                     {| siteverification.Identifier := types.Value (Domain data);
                        siteverification.Type_ := resourceType |} |} in
  let err := siteverification.err call in
  if negb (errors.is_nil err) then
    {| Diagnostics :=
         diag.AddError diags "Client Error"
           ("Unable to create verification, got error: %s", [diag.OpError err]);
       State := None |}
  else
    let result := siteverification.result call in
    match url.QueryUnescape (siteverification.Id result) with
    | inr bad =>
        {| Diagnostics :=
             diag.AddError diags "Client Error"
               ("failed to urldecode id %s, %s",
                [diag.OpString (siteverification.Id result);
                 diag.OpError (EscapeError bad)]);
           State := None |}
    | inl id =>
        {| Diagnostics := diags;
           State := Some {| Domain := Domain data; Token := Token data;
                            Id := types.StringValue id |} |}
    end.

(** [Read]; the argument [prior] is what [req.State.Get] decodes. *)
Definition Read (ctx : context.Context) (start : Time)
    (prior : diag.Diagnostics * Model) : Response :=
let (diags, data) := prior in
if diag.HasError diags then {| Diagnostics := diags; State := None |}
else
  let call := siteverification.Get srv ctx start (types.Value (Id data)) in
  let err := siteverification.err call in
  if negb (errors.is_nil err) then
    {| Diagnostics :=
         diag.AddError diags "Client Error"
           ("Unable to read verification, got error: %s", [diag.OpError err]);
       State := None |}
  else {| Diagnostics := diags; State := Some data |}.

(** [Delete]; the state is left as it was handed in. *)
Definition Delete (ctx : context.Context) (start : Time)
    (prior : diag.Diagnostics * Model) : Response :=
let (diags, data) := prior in
if diag.HasError diags then {| Diagnostics := diags; State := Some data |}
else
  let call := siteverification.Delete srv ctx start 0 (types.Value (Id data)) in
  let err := siteverification.err call in
  if negb (errors.is_nil err) then
    {| Diagnostics :=
         diag.AddError diags "Client Error"
           ("Unable to delete verification, got error: %s", [diag.OpError err]);
       State := Some data |}
  else {| Diagnostics := diags; State := Some data |}.

End DNSResource.

End legacy.

(** The fields the two models share. *)
Definition without_timeouts (m : DomainResourceModel) : legacy.Model :=
{| legacy.Domain := Domain m; legacy.Token := Token m; legacy.Id := Id m |}.

(** [fmt.Errorf] with [%w], applied once per message, outermost first. *)
Definition wrap_all (msgs : list string) (e : error) : error :=
  fold_right wrapError e msgs.

(** No ['+'] occurs. *)
Fixpoint no_plus (s : string) : bool :=
  match s with
  | EmptyString => true
  | String c rest => negb (Ascii.eqb c "+") && no_plus rest
  end.

(** A diagnostic of the kind every operation of the resource adds. *)
Definition client_error (detail : string * list diag.operand) : diag.Diagnostic :=
{| diag.severity := diag.SeverityError; diag.Summary := "Client Error"; diag.Detail := detail |}.

(** The fields of a data source record that a read computes. *)
Definition computed_fields (m : datasource.Model)
  : types.String * types.String * types.String * types.String :=
(datasource.RecordType m, datasource.RecordName m, datasource.RecordValue m, datasource.ID m).

(* ================================================================== *)
(** ** The claims' words, stated apart from the code *)
(* ================================================================== *)

(** The text [msg] occurs in [m], at any position. *)
Definition contains_text (m msg : string) : Prop :=
  exists a b, m = (a ++ msg ++ b)%string.




(** The API error that [errors.As] finds in [e] has code 400 and a
    message that contains [msg]. *)
Definition api_error_400_with (msg : string) (e : error) : Prop :=
  exists m inner,
    first_api_error e = Some (googleapiError 400 m inner) /\ contains_text m msg.

(** The hexadecimal digits. *)
Definition hex_digits : list ascii := list_ascii_of_string "0123456789abcdefABCDEF".

Definition is_hex_digit (c : ascii) : bool := existsb (Ascii.eqb c) hex_digits.

(** Every ['%'] of [s] is followed by two hexadecimal digits; a string
    for which this fails has a malformed percent-escape. *)
Definition every_percent_escapes (s : string) : Prop :=
  forall pre post, s = (pre ++ String "%" post)%string ->
    exists a b rest,
      post = String a (String b rest) /\ is_hex_digit a = true /\ is_hex_digit b = true.

(* ================================================================== *)
(** ** Facts about the library pieces *)
(* ================================================================== *)

Lemma HasPrefix_app (p r : string) : strings.HasPrefix (p ++ r)%string p = true.
Proof.
  induction p as [|c p IH]; simpl; [reflexivity|].
  now rewrite Ascii.eqb_refl, IH.
Qed.

Lemma HasPrefix_inv (s p : string) :
  strings.HasPrefix s p = true -> exists r, s = (p ++ r)%string.
Proof.
  revert s; induction p as [|c p IH]; intros s H; simpl in *.
  - now exists s.
  - destruct s as [|d s]; [discriminate|].
    apply andb_true_iff in H as [Hc Hp].
    apply Ascii.eqb_eq in Hc; subst d.
    destruct (IH _ Hp) as [r ->]. now exists r.
Qed.

Lemma drop_app (p r : string) : strings.drop (String.length p) (p ++ r)%string = r.
Proof. induction p as [|c p IH]; simpl; auto. Qed.

(** [TrimPrefix] removes a leading prefix ... *)
Lemma TrimPrefix_app (p r : string) : strings.TrimPrefix (p ++ r)%string p = r.
Proof. unfold strings.TrimPrefix. now rewrite HasPrefix_app, drop_app. Qed.

(** ... and leaves every other string as it is. *)
Lemma TrimPrefix_other (s p : string) :
  strings.HasPrefix s p = false -> strings.TrimPrefix s p = s.
Proof. unfold strings.TrimPrefix. now intros ->. Qed.

(** [strings.Contains s sub] holds exactly when [sub] occurs in [s]. *)
Lemma Contains_spec (s sub : string) :
  strings.Contains s sub = true <-> exists a b, s = (a ++ sub ++ b)%string.
Proof.
  split.
  - induction s as [|c s IH]; simpl; intros H.
    + rewrite orb_false_r in H. destruct (HasPrefix_inv _ _ H) as [r Hr].
      exists EmptyString, r. exact Hr.
    + apply orb_true_iff in H as [H|H].
      * destruct (HasPrefix_inv _ _ H) as [r Hr]. exists EmptyString, r. exact Hr.
      * destruct (IH H) as (a & b & ->). now exists (String c a), b.
  - intros (a & b & ->). induction a as [|c a IH]; simpl.
    + destruct (sub ++ b)%string eqn:E; simpl.
      * rewrite <- E, HasPrefix_app. reflexivity.
      * rewrite <- E, HasPrefix_app. reflexivity.
    + rewrite IH. apply orb_true_r.
Qed.

(** [errors.As] finds the first [*googleapi.Error] of the chain. *)
Lemma As_first (e : error) :
  errors.As e =
  match find errors.is_googleapi (errors.chain e) with
  | Some (googleapiError c m _) => Some (c, m)
  | _ => None
  end.
Proof. induction e; simpl; auto. Qed.

(** The chain is spanned by [Unwrap]. *)
Lemma chain_Unwrap (e : error) :
  e <> nil_error -> errors.chain e = e :: errors.chain (errors.Unwrap e).
Proof. destruct e; simpl; congruence. Qed.

Lemma As_none_iff (e : error) :
  errors.As e = None <-> forallb (fun x => negb (errors.is_googleapi x)) (errors.chain e) = true.
Proof.
  induction e; simpl; try tauto.
  split; discriminate.
Qed.

Lemma checkErr_nil (msg : string) : checkErr nil_error msg = false.
Proof. reflexivity. Qed.

Lemma checkErr_not_nil (e : error) (msg : string) :
  checkErr e msg = true -> errors.is_nil e = false.
Proof. destruct e; simpl; auto. Qed.

(** The transient errors are recognised by their own check only. *)
Lemma TokenNotFound_transient : checkErr stub.TokenNotFoundError errTokenNotFound = true.
Proof. reflexivity. Qed.

Lemma TokenStillPresent_transient : checkErr stub.TokenStillPresentError errTokenExists = true.
Proof. reflexivity. Qed.

(* ================================================================== *)
(** ** Facts about time and the [select] *)
(* ================================================================== *)

Lemma sleepSeconds_pos : 0 < sleepSeconds.
Proof. reflexivity. Qed.

Lemma elapse_le (now : Time) (d : N) : now <= elapse now d.
Proof. unfold elapse. lia. Qed.

(** The timer wins only when the whole sleep fits before the context is
    done. *)
Lemma select_After_inv tie ctx now d t :
  context.done_at ctx = Some t ->
  context.select tie ctx now d = context.After -> now + d <= t.
Proof.
  unfold context.select. intros ->.
  destruct (t <? now + d) eqn:E; [discriminate|].
  intros _. apply Z.ltb_ge in E. exact E.
Qed.

(** The context wins only when it is done by the end of the sleep. *)
Lemma select_Done_inv tie ctx now d :
  context.select tie ctx now d = context.Done ->
  exists t, context.done_at ctx = Some t /\ t <= now + d.
Proof.
  unfold context.select. destruct (context.done_at ctx) as [t|]; [|discriminate].
  intros H. exists t. split; [reflexivity|].
  destruct (t <? now + d) eqn:E1; [apply Z.ltb_lt in E1; lia|].
  destruct (now + d <? t) eqn:E2; [discriminate|].
  apply Z.ltb_ge in E2. exact E2.
Qed.

Lemma select_fits tie ctx now d t :
  context.done_at ctx = Some t -> now + d < t ->
  context.select tie ctx now d = context.After.
Proof.
  unfold context.select. intros -> H.
  destruct (t <? now + d) eqn:E1; [apply Z.ltb_lt in E1; lia|].
  destruct (now + d <? t) eqn:E2; [reflexivity|apply Z.ltb_ge in E2; lia].
Qed.

Lemma select_late tie ctx now d t :
  context.done_at ctx = Some t -> t < now + d ->
  context.select tie ctx now d = context.Done.
Proof.
  unfold context.select. intros -> H.
  destruct (t <? now + d) eqn:E1; [reflexivity|apply Z.ltb_ge in E1; lia].
Qed.

Lemma max_attempts_step ctx now now' t fuel :
  context.done_at ctx = Some t ->
  now + sleepSeconds <= now' -> now' <= t ->
  (max_attempts ctx now <= S fuel)%nat -> (max_attempts ctx now' <= fuel)%nat.
Proof.
  unfold max_attempts. intros -> H1 H2 H3.
  pose proof sleepSeconds_pos as Hp.
  assert (Hd : (t - now') / sleepSeconds + 1 <= (t - now) / sleepSeconds).
  { replace ((t - now') / sleepSeconds + 1)
      with ((t - now' + 1 * sleepSeconds) / sleepSeconds)
      by (rewrite Z.div_add by lia; reflexivity).
    apply Z.div_le_mono; lia. }
  assert (0 <= (t - now') / sleepSeconds) by (apply Z.div_pos; lia).
  lia.
Qed.

(* ================================================================== *)
(** ** The retry loops *)
(* ================================================================== *)

(** The clock advances by the calls and by one [sleepSeconds] per retry. *)
Lemma clock_sum took_at (k : nat) : forall now n,
  clock took_at now n k = now + Z.of_nat k * sleepSeconds + spent took_at now n k.
Proof.
  induction k as [|k IH]; intros now n.
  - simpl. lia.
  - cbn [clock spent]. rewrite IH. unfold elapse. lia.
Qed.

Lemma spent_nonneg took_at (k : nat) : forall now n, 0 <= spent took_at now n k.
Proof.
  induction k as [|k IH]; intros now n; cbn [spent]; [lia|].
  specialize (IH (elapse now (took_at now n) + sleepSeconds) (S n)). lia.
Qed.

Section Loops.

Variable srv : siteverification.Service.
Variable tie : nat -> context.Case.
Variable ctx : context.Context.
Variable data : DomainResourceModel.
Variable diags : diag.Diagnostics.

(** *** Termination: the fuel [max_attempts] is never used up. *)

Lemma Create_loop_terminates (fuel : nat) : forall now n t,
  context.done_at ctx = Some t ->
  (max_attempts ctx now <= fuel)%nat ->
  exists r, Create_loop srv tie fuel ctx data diags now n = Some r.
Proof.
  induction fuel as [|fuel IH]; intros now n t Ht Hf.
  - unfold max_attempts in Hf. rewrite Ht in Hf. lia.
  - cbn [Create_loop].
    destruct (negb (errors.is_nil _)).
    + destruct (checkErr _ _).
      * destruct (context.select _ _ _ _) eqn:Sel; [eauto|].
        apply (IH _ _ t Ht).
        apply (max_attempts_step ctx now _ t fuel Ht); auto.
        -- pose proof (elapse_le now (siteverification.took
              (siteverification.Insert srv ctx now n verificationMethod (insert_body data)))).
           lia.
        -- eapply select_After_inv; eauto.
      * eauto.
    + destruct (url.QueryUnescape _); eauto.
Qed.

Lemma Delete_loop_terminates (fuel : nat) : forall now n t,
  context.done_at ctx = Some t ->
  (max_attempts ctx now <= fuel)%nat ->
  exists r, Delete_loop srv tie fuel ctx data diags now n = Some r.
Proof.
  induction fuel as [|fuel IH]; intros now n t Ht Hf.
  - unfold max_attempts in Hf. rewrite Ht in Hf. lia.
  - cbn [Delete_loop].
    destruct (negb (errors.is_nil _)); [|eauto].
    destruct (checkErr _ _); [|eauto].
    destruct (context.select _ _ _ _) eqn:Sel; [eauto|].
    apply (IH _ _ t Ht).
    apply (max_attempts_step ctx now _ t fuel Ht); auto.
    + pose proof (elapse_le now (siteverification.took
          (siteverification.Delete srv ctx now n (types.Value (Id data))))).
      lia.
    + eapply select_After_inv; eauto.
Qed.

(** More fuel does not change a result. *)
Lemma Create_loop_more_fuel (fuel : nat) : forall now n r extra,
  Create_loop srv tie fuel ctx data diags now n = Some r ->
  Create_loop srv tie (fuel + extra) ctx data diags now n = Some r.
Proof.
  induction fuel as [|fuel IH]; intros now n r extra; [discriminate|].
  cbn [Create_loop Nat.add].
  destruct (negb (errors.is_nil _)); auto.
  destruct (checkErr _ _); auto.
  destruct (context.select _ _ _ _); auto.
Qed.

Lemma Delete_loop_more_fuel (fuel : nat) : forall now n r extra,
  Delete_loop srv tie fuel ctx data diags now n = Some r ->
  Delete_loop srv tie (fuel + extra) ctx data diags now n = Some r.
Proof.
  induction fuel as [|fuel IH]; intros now n r extra; [discriminate|].
  cbn [Delete_loop Nat.add].
  destruct (negb (errors.is_nil _)); auto.
  destruct (checkErr _ _); auto.
  destruct (context.select _ _ _ _); auto.
Qed.

(** *** Retrying: [k] transient failures, each followed by a full
    backoff, bring the loop to attempt [n + k]. *)

Lemma Create_loop_retry (k : nat) : forall fuel now n,
  (forall i, (i < k)%nat ->
     checkErr (siteverification.err (insert_nth srv ctx data now n i)) errTokenNotFound = true /\
     insert_backoff_fits srv tie ctx data now n i) ->
  Create_loop srv tie (k + fuel) ctx data diags now n =
  Create_loop srv tie fuel ctx data diags (insert_clock srv ctx data now n k) (n + k).
Proof.
  induction k as [|k IH]; intros fuel now n H.
  - simpl. now rewrite Nat.add_0_r.
  - destruct (H O ltac:(lia)) as [Herr Hfit].
    unfold insert_backoff_fits, insert_nth, insert_clock in Herr, Hfit.
    cbn [clock] in Herr, Hfit. rewrite Nat.add_0_r in Herr, Hfit.
    unfold insert_at in Herr, Hfit.
    unfold insert_clock. cbn [Create_loop Nat.add clock].
    rewrite (checkErr_not_nil _ _ Herr), Herr. cbn [negb]. rewrite Hfit.
    rewrite IH.
    + unfold insert_clock, insert_at. f_equal. lia.
    + intros i Hi. specialize (H (S i) ltac:(lia)).
      unfold insert_backoff_fits, insert_nth, insert_clock in *. cbn [clock] in H.
      replace (S n + i)%nat with (n + S i)%nat by lia. exact H.
Qed.

Lemma Delete_loop_retry (k : nat) : forall fuel now n,
  (forall i, (i < k)%nat ->
     checkErr (siteverification.err (delete_nth srv ctx data now n i)) errTokenExists = true /\
     delete_backoff_fits srv tie ctx data now n i) ->
  Delete_loop srv tie (k + fuel) ctx data diags now n =
  Delete_loop srv tie fuel ctx data diags (delete_clock srv ctx data now n k) (n + k).
Proof.
  induction k as [|k IH]; intros fuel now n H.
  - simpl. now rewrite Nat.add_0_r.
  - destruct (H O ltac:(lia)) as [Herr Hfit].
    unfold delete_backoff_fits, delete_nth, delete_clock in Herr, Hfit.
    cbn [clock] in Herr, Hfit. rewrite Nat.add_0_r in Herr, Hfit.
    unfold delete_at in Herr, Hfit.
    unfold delete_clock. cbn [Delete_loop Nat.add clock].
    rewrite (checkErr_not_nil _ _ Herr), Herr. cbn [negb]. rewrite Hfit.
    rewrite IH.
    + unfold delete_clock, delete_at. f_equal. lia.
    + intros i Hi. specialize (H (S i) ltac:(lia)).
      unfold delete_backoff_fits, delete_nth, delete_clock in *. cbn [clock] in H.
      replace (S n + i)%nat with (n + S i)%nat by lia. exact H.
Qed.

End Loops.

Section Outcomes.

Variable srv : siteverification.Service.
Variable tie : nat -> context.Case.

Lemma Create_loop_fuel_agree ctx data diags now n f1 f2 r1 r2 :
  Create_loop srv tie f1 ctx data diags now n = Some r1 ->
  Create_loop srv tie f2 ctx data diags now n = Some r2 -> r1 = r2.
Proof.
  intros H1 H2.
  apply (Create_loop_more_fuel _ _ _ _ _ _ _ _ _ f2) in H1.
  apply (Create_loop_more_fuel _ _ _ _ _ _ _ _ _ f1) in H2.
  rewrite Nat.add_comm in H2. congruence.
Qed.

Lemma Delete_loop_fuel_agree ctx data diags now n f1 f2 r1 r2 :
  Delete_loop srv tie f1 ctx data diags now n = Some r1 ->
  Delete_loop srv tie f2 ctx data diags now n = Some r2 -> r1 = r2.
Proof.
  intros H1 H2.
  apply (Delete_loop_more_fuel _ _ _ _ _ _ _ _ _ f2) in H1.
  apply (Delete_loop_more_fuel _ _ _ _ _ _ _ _ _ f1) in H2.
  rewrite Nat.add_comm in H2. congruence.
Qed.

(** [Create] is its loop, entered at [start] under the context with the
    create timeout; the amount of fuel is immaterial. *)
Lemma Create_unfold ctx0 start req diags data fuel r :
  Get_ req = (diags, data) -> diag.HasError diags = false ->
  Create_loop srv tie fuel (context.WithTimeout ctx0 start (createTimeout data))
    data diags start 0 = Some r ->
  Create srv tie ctx0 start req = Some r.
Proof.
  intros Hreq Hd Hr. unfold Create. rewrite Hreq, Hd.
  destruct (Create_loop_terminates srv tie
              (context.WithTimeout ctx0 start (createTimeout data)) data diags
              (max_attempts (context.WithTimeout ctx0 start (createTimeout data)) start)
              start 0 _ eq_refl (le_n _)) as [r' Hr'].
  rewrite Hr'. f_equal. eapply Create_loop_fuel_agree; eauto.
Qed.

Lemma Delete_unfold ctx0 start req diags data fuel r :
  Get_ req = (diags, data) -> diag.HasError diags = false ->
  Delete_loop srv tie fuel (context.WithTimeout ctx0 start (deleteTimeout data))
    data diags start 0 = Some r ->
  Delete srv tie ctx0 start req = Some r.
Proof.
  intros Hreq Hd Hr. unfold Delete. rewrite Hreq, Hd.
  destruct (Delete_loop_terminates srv tie
              (context.WithTimeout ctx0 start (deleteTimeout data)) data diags
              (max_attempts (context.WithTimeout ctx0 start (deleteTimeout data)) start)
              start 0 _ eq_refl (le_n _)) as [r' Hr'].
  rewrite Hr'. f_equal. eapply Delete_loop_fuel_agree; eauto.
Qed.

(** Both operations return, whatever the client does. *)
Lemma Create_returns ctx0 start req : exists r, Create srv tie ctx0 start req = Some r.
Proof.
  unfold Create. destruct (Get_ req) as [diags data].
  destruct (diag.HasError diags); [eauto|].
  eapply Create_loop_terminates; [reflexivity|apply le_n].
Qed.

Lemma Delete_returns ctx0 start req : exists r, Delete srv tie ctx0 start req = Some r.
Proof.
  unfold Delete. destruct (Get_ req) as [diags data].
  destruct (diag.HasError diags); [eauto|].
  eapply Delete_loop_terminates; [reflexivity|apply le_n].
Qed.

(** An error that is not the transient one ends [Create] at once. *)
Lemma Create_permanent_error ctx0 start req diags data :
  Get_ req = (diags, data) -> diag.HasError diags = false ->
  let call := insert_at srv (context.WithTimeout ctx0 start (createTimeout data)) data start 0 in
  errors.is_nil (siteverification.err call) = false ->
  checkErr (siteverification.err call) errTokenNotFound = false ->
  Create srv tie ctx0 start req =
  Some {| response :=
            {| Diagnostics :=
                 diag.AddError diags "Client Error"
                   ("Unable to create verification, got error: %s",
                    [diag.OpError (siteverification.err call)]);
               State := None |};
          returned_at := elapse start (siteverification.took call);
          attempts := 1; sleeps := 0; exit := ExitClientError |}.
Proof.
  intros Hreq Hd call Hnil Hchk.
  apply (Create_unfold ctx0 start req diags data 1); auto.
  cbn [Create_loop]. fold call. unfold insert_at in call. fold call.
  now rewrite Hnil, Hchk.
Qed.

(** An error that is not the transient one ends [Delete] at once. *)
Lemma Delete_permanent_error ctx0 start req diags data :
  Get_ req = (diags, data) -> diag.HasError diags = false ->
  let call := delete_at srv (context.WithTimeout ctx0 start (deleteTimeout data)) data start 0 in
  errors.is_nil (siteverification.err call) = false ->
  checkErr (siteverification.err call) errTokenExists = false ->
  Delete srv tie ctx0 start req =
  Some {| response :=
            {| Diagnostics :=
                 diag.AddError diags "Client Error"
                   ("Unable to delete verification, got error: %s",
                    [diag.OpError (siteverification.err call)]);
               State := Some data |};
          returned_at := elapse start (siteverification.took call);
          attempts := 1; sleeps := 0; exit := ExitClientError |}.
Proof.
  intros Hreq Hd call Hnil Hchk.
  apply (Delete_unfold ctx0 start req diags data 1); auto.
  cbn [Delete_loop]. fold call. unfold delete_at in call. fold call.
  now rewrite Hnil, Hchk.
Qed.

End Outcomes.

(* ================================================================== *)
(** ** Classification of errors *)
(* ================================================================== *)

Lemma Create_loop_permanent srv tie ctx data diags now n :
  errors.is_nil (siteverification.err (insert_at srv ctx data now n)) = false ->
  checkErr (siteverification.err (insert_at srv ctx data now n)) errTokenNotFound = false ->
  create_stops_at srv tie ctx data diags now n.
Proof.
  intros Hnil Hchk fuel call. subst call. unfold insert_at in *.
  cbn [Create_loop]. now rewrite Hnil, Hchk.
Qed.

Lemma Delete_loop_permanent srv tie ctx data diags now n :
  errors.is_nil (siteverification.err (delete_at srv ctx data now n)) = false ->
  checkErr (siteverification.err (delete_at srv ctx data now n)) errTokenExists = false ->
  delete_stops_at srv tie ctx data diags now n.
Proof.
  intros Hnil Hchk fuel call. subst call. unfold delete_at in *.
  cbn [Delete_loop]. now rewrite Hnil, Hchk.
Qed.

Lemma checkErr_first_api (e : error) (msg : string) :
  checkErr e msg = true <->
  exists c m inner,
    first_api_error e = Some (googleapiError c m inner) /\
    c = 400 /\ strings.Contains m msg = true.
Proof.
  unfold checkErr, first_api_error. rewrite As_first.
  destruct (find errors.is_googleapi (errors.chain e)) as [x|] eqn:F.
  - pose proof (find_some _ _ F) as [_ Hx].
    destruct x; try discriminate Hx.
    rewrite andb_true_iff, Z.eqb_eq. split.
    + intros [H1 H2]. now exists Code, Message, x.
    + intros (c & m & inner & H & H1 & H2). inversion H; subst. auto.
  - split; [discriminate|]. intros (c & m & inner & H & _). discriminate.
Qed.

(** Beyond what one [Do()] returns: an API error with status 500 that
    wraps the token-not-found error has a matching API error in its
    chain, yet [checkErr] looks at the outermost API error only and
    answers [false]. *)
Lemma checkErr_looks_at_outermost_api_error :
  let e := googleapiError 500 "Internal Server Error" stub.TokenNotFoundError in
  ~ (checkErr e errTokenNotFound = true <-> chain_has_transient e errTokenNotFound = true).
Proof.
  intros e [_ H]. assert (C : chain_has_transient e errTokenNotFound = true) by reflexivity.
  apply H in C. discriminate C.
Qed.

(** For any chain: an error is transient exactly when the first API error
    of its chain, the one [errors.As] finds, has code 400 and a message
    that contains the operation's transient text.  When that API error
    has code 400 but another message, the error is permanent: the
    iteration of the create (delete) loop that receives it returns with
    the error and without sleeping. *)
Theorem checkErr_transient_iff (e : error) (msg : string) :
  (checkErr e msg = true <->
   exists c m inner,
     first_api_error e = Some (googleapiError c m inner) /\
     c = 400 /\ strings.Contains m msg = true)
  /\
  (forall m inner,
     first_api_error e = Some (googleapiError 400 m inner) ->
     strings.Contains m msg = false ->
     checkErr e msg = false /\
     (forall srv tie ctx data diags now n,
        msg = errTokenNotFound ->
        siteverification.err (insert_at srv ctx data now n) = e ->
        create_stops_at srv tie ctx data diags now n) /\
     (forall srv tie ctx data diags now n,
        msg = errTokenExists ->
        siteverification.err (delete_at srv ctx data now n) = e ->
        delete_stops_at srv tie ctx data diags now n)).
Proof.
  split; [apply checkErr_first_api|].
  intros m inner Hfirst Hm.
  assert (Hchk : checkErr e msg = false).
  { destruct (checkErr e msg) eqn:E; [|reflexivity].
    apply checkErr_first_api in E as (c & m' & inner' & H & _ & Hc).
    rewrite Hfirst in H. inversion H; subst. congruence. }
  assert (Hnil : errors.is_nil e = false).
  { destruct e; try reflexivity. discriminate Hfirst. }
  split; [exact Hchk|]. split.
  - intros srv tie ctx data diags now n -> He.
    apply Create_loop_permanent; rewrite He; assumption.
  - intros srv tie ctx data diags now n -> He.
    apply Delete_loop_permanent; rewrite He; assumption.
Qed.

(** At work: a 400 with another message, as the first
    answer of [Insert], ends the create loop after one attempt and no
    sleep. *)
Lemma checkErr_transient_iff_witness :
  let e := googleapiError 400 "Invalid site identifier" nil_error in
  let srv := stub.failing 0 e e in
  let data := stub.model "example.com" timeouts.unset in
  checkErr e errTokenNotFound = false /\
  exists r,
    Create_loop srv (stub.always context.After) 1 context.Background data [] 0 0 = Some r /\
    attempts r = 1%nat /\ sleeps r = 0%nat /\ exit r = ExitClientError.
Proof.
  intros e srv data.
  destruct (proj2 (checkErr_transient_iff e errTokenNotFound)
              "Invalid site identifier" nil_error eq_refl eq_refl) as (H1 & H2 & _).
  split; [exact H1|].
  eexists. split.
  - exact (H2 srv (stub.always context.After) context.Background data [] 0 0%nat
              eq_refl eq_refl 0%nat).
  - repeat split.
Defined.

(** C9: an error whose chain holds no [*googleapi.Error] (a context
    cancellation or deadline error of a network call, or any plain or
    wrapped error) is never transient, whatever its text: the iteration
    of the create (delete) loop that receives it returns with the error
    and without sleeping. *)
Theorem checkErr_without_api_error (e : error) (msg : string) :
  forallb (fun x => negb (errors.is_googleapi x)) (errors.chain e) = true ->
  checkErr e msg = false /\
  (forall srv tie ctx data diags now n,
     errors.is_nil e = false ->
     siteverification.err (insert_at srv ctx data now n) = e ->
     create_stops_at srv tie ctx data diags now n) /\
  (forall srv tie ctx data diags now n,
     errors.is_nil e = false ->
     siteverification.err (delete_at srv ctx data now n) = e ->
     delete_stops_at srv tie ctx data diags now n).
Proof.
  intros H. apply As_none_iff in H.
  assert (Hchk : forall msg', checkErr e msg' = false).
  { intros msg'. unfold checkErr. now rewrite H. }
  split; [apply Hchk|]. split.
  - intros srv tie ctx data diags now n Hnil He.
    apply Create_loop_permanent; rewrite He; auto.
  - intros srv tie ctx data diags now n Hnil He.
    apply Delete_loop_permanent; rewrite He; auto.
Qed.

(** C9 at work: a deadline error of the transport whose text quotes the
    token-not-found message is still permanent. *)
Lemma checkErr_without_api_error_witness :
  let e := wrapError errTokenNotFound context_DeadlineExceeded in
  let srv := stub.failing 0 e e in
  let data := stub.model "example.com" timeouts.unset in
  checkErr e errTokenNotFound = false /\
  exists r,
    Delete_loop srv (stub.always context.After) 1 context.Background data [] 0 0 = Some r /\
    attempts r = 1%nat /\ sleeps r = 0%nat /\ exit r = ExitClientError.
Proof.
  intros e srv data.
  destruct (checkErr_without_api_error e errTokenNotFound eq_refl) as (H1 & _ & H3).
  split; [exact H1|].
  eexists. split.
  - exact (H3 srv (stub.always context.After) context.Background data [] 0 0%nat
              eq_refl eq_refl 0%nat).
  - repeat split.
Defined.

(* ================================================================== *)
(** ** The create and delete transitions *)
(* ================================================================== *)

(** The delete transition while the backoffs fit.  Let the first [k] answers of [Delete] be
    token-still-present errors whose backoff runs to its end, and let
    the next answer be anything else.  Then [Delete] makes exactly
    [k + 1] attempts separated by [k] sleeps of [sleepSeconds] (60
    seconds) each, and ends with that next answer: without diagnostic
    when it carries no error, with the error in a "Client Error"
    diagnostic otherwise. *)
Theorem Delete_transition srv tie ctx0 start req diags data (k : nat) :
  Get_ req = (diags, data) -> diag.HasError diags = false ->
  let ctx := context.WithTimeout ctx0 start (deleteTimeout data) in
  (forall i, (i < k)%nat ->
     checkErr (siteverification.err (delete_nth srv ctx data start 0 i)) errTokenExists = true /\
     delete_backoff_fits srv tie ctx data start 0 i) ->
  let last := delete_nth srv ctx data start 0 k in
  checkErr (siteverification.err last) errTokenExists = false ->
  Delete srv tie ctx0 start req =
  Some {| response :=
            {| Diagnostics :=
                 if errors.is_nil (siteverification.err last) then diags
                 else diag.AddError diags "Client Error"
                        ("Unable to delete verification, got error: %s",
                         [diag.OpError (siteverification.err last)]);
               State := Some data |};
          returned_at :=
            start + Z.of_nat k * (60 * Second)
            + spent (fun now n => siteverification.took (delete_at srv ctx data now n)) start 0 (S k);
          attempts := S k; sleeps := k;
          exit := if errors.is_nil (siteverification.err last) then ExitEnd
                  else ExitClientError |}.
Proof.
  intros Hreq Hd ctx Hretry last Hlast.
  apply (Delete_unfold srv tie ctx0 start req diags data (k + 1)); auto.
  fold ctx. rewrite (Delete_loop_retry srv tie ctx data diags k 1 start 0 Hretry).
  cbn [Delete_loop Nat.add]. fold (delete_at srv ctx data (delete_clock srv ctx data start 0 k) k).
  change (delete_at srv ctx data (delete_clock srv ctx data start 0 k) k) with last.
  rewrite Hlast.
  assert (Ht : elapse (delete_clock srv ctx data start 0 k) (siteverification.took last)
               = start + Z.of_nat k * (60 * Second)
                 + spent (fun now n => siteverification.took (delete_at srv ctx data now n))
                     start 0 (S k)).
  { unfold delete_clock. rewrite clock_sum.
    assert (Hs : forall took_at j now n,
               spent took_at now n (S j)
               = spent took_at now n j + Z.of_N (took_at (clock took_at now n j) (n + j)%nat)).
    { clear. intros took_at j. induction j as [|j IH]; intros now n.
      - cbn [spent clock]. rewrite Nat.add_0_r. lia.
      - change (spent took_at now n (S (S j)))
          with (Z.of_N (took_at now n)
                + spent took_at (elapse now (took_at now n) + sleepSeconds) (S n) (S j)).
        rewrite IH. cbn [spent clock].
        replace (S n + j)%nat with (n + S j)%nat by lia. lia. }
    rewrite Hs. unfold last, delete_nth, delete_clock, elapse.
    change sleepSeconds with (60 * Second). simpl Nat.add. lia. }
  rewrite Ht.
  destruct (errors.is_nil (siteverification.err last)); reflexivity.
Qed.

(** At work: two token-still-present answers, then success, within
    the default five minutes. *)
Lemma Delete_transition_witness :
  Delete (stub.flaky 2 0 stub.TokenNotFoundError stub.TokenStillPresentError
            "id" "example.com" "abc123")
         (stub.always context.Done) context.Background 0
         (stub.request (stub.model "example.com" timeouts.unset))
  = Some {| response := {| Diagnostics := [];
                           State := Some (stub.model "example.com" timeouts.unset) |};
            returned_at := 2 * (60 * Second);
            attempts := 3; sleeps := 2; exit := ExitEnd |}.
Proof.
  refine (Delete_transition
            (stub.flaky 2 0 stub.TokenNotFoundError stub.TokenStillPresentError
               "id" "example.com" "abc123")
            (stub.always context.Done) context.Background 0
            (stub.request (stub.model "example.com" timeouts.unset))
            [] (stub.model "example.com" timeouts.unset) 2 eq_refl eq_refl _ eq_refl).
  intros i Hi.
  destruct i as [|[|i]]; [split; reflexivity|split; reflexivity|lia].
Defined.

(** The create transition: [k] token-not-found answers whose backoff
    runs to its end, then any other answer, give [k + 1] attempts, [k]
    sleeps, and the outcome of that last answer. *)
Lemma Create_transition srv tie ctx0 start req diags data (k : nat) :
  Get_ req = (diags, data) -> diag.HasError diags = false ->
  let ctx := context.WithTimeout ctx0 start (createTimeout data) in
  (forall i, (i < k)%nat ->
     checkErr (siteverification.err (insert_nth srv ctx data start 0 i)) errTokenNotFound = true /\
     insert_backoff_fits srv tie ctx data start 0 i) ->
  let last := insert_nth srv ctx data start 0 k in
  checkErr (siteverification.err last) errTokenNotFound = false ->
  Create srv tie ctx0 start req =
  Some {| response := fst (create_end diags data last);
          returned_at := elapse (insert_clock srv ctx data start 0 k) (siteverification.took last);
          attempts := S k; sleeps := k;
          exit := snd (create_end diags data last) |}.
Proof.
  intros Hreq Hd ctx Hretry last Hlast.
  apply (Create_unfold srv tie ctx0 start req diags data (k + 1)); auto.
  fold ctx. rewrite (Create_loop_retry srv tie ctx data diags k 1 start 0 Hretry).
  cbn [Create_loop Nat.add]. fold (insert_at srv ctx data (insert_clock srv ctx data start 0 k) k).
  change (insert_at srv ctx data (insert_clock srv ctx data start 0 k) k) with last.
  rewrite Hlast. unfold create_end.
  destruct (errors.is_nil (siteverification.err last)); cbn [negb]; [|reflexivity].
  destruct (url.QueryUnescape _); reflexivity.
Qed.

(** The clock of a client whose calls all take [d]. *)
Lemma clock_constant (d : N) took_at (k : nat) : forall now n,
  (forall t i, took_at t i = d) ->
  clock took_at now n k = now + Z.of_nat k * (sleepSeconds + Z.of_N d).
Proof.
  induction k as [|k IH]; intros now n H.
  - simpl. lia.
  - cbn [clock]. rewrite IH by assumption. rewrite H. unfold elapse. lia.
Qed.

Lemma flaky_Insert_took fails d e1 e2 rid dom tok ctx t i m body :
  siteverification.took
    (siteverification.Insert (stub.flaky fails d e1 e2 rid dom tok) ctx t i m body) = d.
Proof.
  unfold stub.flaky. cbn [siteverification.Insert].
  destruct (i <? fails)%nat; reflexivity.
Qed.

Lemma flaky_Insert_fails fails d e1 e2 rid dom tok ctx t i m body :
  (i < fails)%nat ->
  siteverification.err
    (siteverification.Insert (stub.flaky fails d e1 e2 rid dom tok) ctx t i m body) = e1.
Proof.
  intros Hi. apply Nat.ltb_lt in Hi.
  unfold stub.flaky. cbn [siteverification.Insert]. rewrite Hi. reflexivity.
Qed.

Lemma flaky_Insert_succeeds fails d e1 e2 rid dom tok ctx t i m body :
  (fails <= i)%nat ->
  siteverification.Insert (stub.flaky fails d e1 e2 rid dom tok) ctx t i m body
  = stub.ok d {| siteverification.Id := rid;
                 siteverification.ResourceSite := siteverification.ResourceSite body |}.
Proof.
  intros Hi. apply Nat.ltb_ge in Hi.
  unfold stub.flaky. cbn [siteverification.Insert]. rewrite Hi. reflexivity.
Qed.

(** First half of C1: against a client that ignores its context, whose
    calls take [d] and whose first [fails] answers to [Insert] are the
    token-not-found error, [Create] succeeds as soon as the [fails] rounds
    of call and backoff end before the deadline, and stores the decoded
    identifier of the successful answer. *)
Lemma Create_retries_until_success (fails : nat) (d : N) tie start data e2 rid id dom tok :
  Z.of_nat fails * (60 * Second + Z.of_N d) < createTimeout data ->
  url.QueryUnescape rid = inl id ->
  Create (stub.flaky fails d stub.TokenNotFoundError e2 rid dom tok) tie
         context.Background start (stub.request data)
  = Some {| response :=
              {| Diagnostics := [];
                 State := Some {| Domain := Domain data; Token := Token data;
                                  Id := types.StringValue id; Timeouts := Timeouts data |} |};
            returned_at := start + Z.of_nat fails * (60 * Second + Z.of_N d) + Z.of_N d;
            attempts := S fails; sleeps := fails; exit := ExitEnd |}.
Proof.
  intros HT Hid.
  set (srv := stub.flaky fails d stub.TokenNotFoundError e2 rid dom tok).
  set (ctx := context.WithTimeout context.Background start (createTimeout data)).
  assert (Hclock : forall k, insert_clock srv ctx data start 0 k
                             = start + Z.of_nat k * (sleepSeconds + Z.of_N d)).
  { intros k. unfold insert_clock. apply clock_constant.
    intros t i. apply flaky_Insert_took. }
  assert (Hlast : insert_nth srv ctx data start 0 fails
                  = stub.ok d {| siteverification.Id := rid;
                                 siteverification.ResourceSite :=
                                   siteverification.ResourceSite (insert_body data) |}).
  { unfold insert_nth, insert_at, srv. apply flaky_Insert_succeeds. lia. }
  rewrite (Create_transition srv tie context.Background start (stub.request data) [] data fails
             eq_refl eq_refl).
  - fold ctx. rewrite Hlast, Hclock. unfold create_end.
    cbn [stub.ok siteverification.err siteverification.result siteverification.took
         siteverification.Id errors.is_nil].
    rewrite Hid. cbn [fst snd].
    unfold elapse. change sleepSeconds with (60 * Second). reflexivity.
  - fold ctx. intros i Hi. split.
    + unfold insert_nth, insert_at, srv. rewrite flaky_Insert_fails by lia. reflexivity.
    + unfold insert_backoff_fits.
      apply (select_fits _ ctx _ _ (start + createTimeout data)); [reflexivity|].
      rewrite Hclock. unfold insert_nth, insert_at, srv. rewrite flaky_Insert_took.
      unfold elapse. change sleepSeconds with (60 * Second) in *.
      assert (Hu : 0 <= 60 * Second + Z.of_N d) by (unfold Second; lia).
      assert (Hm : (Z.of_nat i + 1) * (60 * Second + Z.of_N d)
                   <= Z.of_nat fails * (60 * Second + Z.of_N d))
        by (apply Z.mul_le_mono_nonneg_r; lia).
      lia.
  - fold ctx. now rewrite Hlast.
Qed.

(* ================================================================== *)
(** ** The deadline *)
(* ================================================================== *)

Section GivingUp.

Variable srv : siteverification.Service.
Variable tie : nat -> context.Case.
Variable ctx : context.Context.
Variable data : DomainResourceModel.
Variable diags : diag.Diagnostics.
Variable start t : Time.
Variable fails : nat.

Hypothesis Hdone : context.done_at ctx = Some t.
Hypothesis Hlate : t < start + Z.of_nat fails * sleepSeconds.

Lemma next_attempt_still_fails (now : Time) (n : nat) :
  start + Z.of_nat (S n) * sleepSeconds <= now -> now <= t -> (S n < fails)%nat.
Proof.
  intros H1 H2. pose proof sleepSeconds_pos.
  assert (Z.of_nat (S n) * sleepSeconds < Z.of_nat fails * sleepSeconds) by lia.
  apply Z.mul_lt_mono_pos_r in H0; lia.
Qed.

(** While the answers stay transient the create loop can only leave
    through [case <-ctx.Done(): return], which reports nothing. *)
Lemma Create_loop_gives_up (fuel : nat) : forall now n r,
  (forall now' n', (n' < fails)%nat ->
     checkErr (siteverification.err (insert_at srv ctx data now' n')) errTokenNotFound = true) ->
  start + Z.of_nat n * sleepSeconds <= now -> (n < fails)%nat ->
  Create_loop srv tie fuel ctx data diags now n = Some r ->
  response r = {| Diagnostics := diags; State := None |} /\ exit r = ExitCtxDone.
Proof.
  induction fuel as [|fuel IH]; intros now n r Htr Hnow Hn; [discriminate|].
  cbn [Create_loop]. specialize (Htr now n Hn) as Herr. unfold insert_at in Herr.
  rewrite (checkErr_not_nil _ _ Herr), Herr. cbn [negb].
  destruct (context.select _ _ _ _) eqn:Sel.
  - intros [= <-]. split; reflexivity.
  - pose proof (select_After_inv _ _ _ _ _ Hdone Sel) as Hfit.
    pose proof (elapse_le now (siteverification.took
           (siteverification.Insert srv ctx now n verificationMethod (insert_body data)))) as Hel.
    apply IH; auto.
    + lia.
    + apply (next_attempt_still_fails
               (elapse now (siteverification.took
                  (siteverification.Insert srv ctx now n verificationMethod (insert_body data)))
                + sleepSeconds)); lia.
Qed.

Lemma Delete_loop_gives_up (fuel : nat) : forall now n r,
  (forall now' n', (n' < fails)%nat ->
     checkErr (siteverification.err (delete_at srv ctx data now' n')) errTokenExists = true) ->
  start + Z.of_nat n * sleepSeconds <= now -> (n < fails)%nat ->
  Delete_loop srv tie fuel ctx data diags now n = Some r ->
  response r = {| Diagnostics := diags; State := Some data |} /\ exit r = ExitCtxDone.
Proof.
  induction fuel as [|fuel IH]; intros now n r Htr Hnow Hn; [discriminate|].
  cbn [Delete_loop]. specialize (Htr now n Hn) as Herr. unfold delete_at in Herr.
  rewrite (checkErr_not_nil _ _ Herr), Herr. cbn [negb].
  destruct (context.select _ _ _ _) eqn:Sel.
  - intros [= <-]. split; reflexivity.
  - pose proof (select_After_inv _ _ _ _ _ Hdone Sel) as Hfit.
    pose proof (elapse_le now (siteverification.took
           (siteverification.Delete srv ctx now n (types.Value (Id data))))) as Hel.
    apply IH; auto.
    + lia.
    + apply (next_attempt_still_fails
               (elapse now (siteverification.took
                  (siteverification.Delete srv ctx now n (types.Value (Id data))))
                + sleepSeconds)); lia.
Qed.

End GivingUp.

(** Second half of C1, as the code has it: when the first [fails]
    answers of [Insert] are transient and [fails] backoffs exceed the
    create timeout, [Create] returns through [case <-ctx.Done()] with no
    state and with no diagnostic beyond those of reading the plan. *)
Lemma Create_gives_up_without_diagnostic srv tie ctx0 start req diags data (fails : nat) :
  Get_ req = (diags, data) -> diag.HasError diags = false ->
  (0 < fails)%nat ->
  createTimeout data < Z.of_nat fails * (60 * Second) ->
  (forall ctx now n m body, (n < fails)%nat ->
     checkErr (siteverification.err (siteverification.Insert srv ctx now n m body))
       errTokenNotFound = true) ->
  exists r,
    Create srv tie ctx0 start req = Some r /\
    response r = {| Diagnostics := diags; State := None |} /\ exit r = ExitCtxDone.
Proof.
  intros Hreq Hd Hpos HT Htr.
  destruct (Create_returns srv tie ctx0 start req) as [r Hr].
  exists r. split; [exact Hr|].
  unfold Create in Hr. rewrite Hreq, Hd in Hr.
  set (t := match context.done_at ctx0 with
            | Some p => Z.min p (start + createTimeout data)
            | None => start + createTimeout data
            end).
  assert (Hlate : t < start + Z.of_nat fails * sleepSeconds).
  { change sleepSeconds with (60 * Second). unfold t.
    destruct (context.done_at ctx0); lia. }
  apply (Create_loop_gives_up srv tie (context.WithTimeout ctx0 start (createTimeout data))
           data diags start t fails eq_refl Hlate
           (max_attempts (context.WithTimeout ctx0 start (createTimeout data)) start) start 0 r); auto.
  - intros now' n' Hn. apply Htr. exact Hn.
  - simpl. lia.
Qed.

Lemma Delete_gives_up_without_diagnostic srv tie ctx0 start req diags data (fails : nat) :
  Get_ req = (diags, data) -> diag.HasError diags = false ->
  (0 < fails)%nat ->
  deleteTimeout data < Z.of_nat fails * (60 * Second) ->
  (forall ctx now n id, (n < fails)%nat ->
     checkErr (siteverification.err (siteverification.Delete srv ctx now n id))
       errTokenExists = true) ->
  exists r,
    Delete srv tie ctx0 start req = Some r /\
    response r = {| Diagnostics := diags; State := Some data |} /\ exit r = ExitCtxDone.
Proof.
  intros Hreq Hd Hpos HT Htr.
  destruct (Delete_returns srv tie ctx0 start req) as [r Hr].
  exists r. split; [exact Hr|].
  unfold Delete in Hr. rewrite Hreq, Hd in Hr.
  set (t := match context.done_at ctx0 with
            | Some p => Z.min p (start + deleteTimeout data)
            | None => start + deleteTimeout data
            end).
  assert (Hlate : t < start + Z.of_nat fails * sleepSeconds).
  { change sleepSeconds with (60 * Second). unfold t.
    destruct (context.done_at ctx0); lia. }
  apply (Delete_loop_gives_up srv tie (context.WithTimeout ctx0 start (deleteTimeout data))
           data diags start t fails eq_refl Hlate
           (max_attempts (context.WithTimeout ctx0 start (deleteTimeout data)) start) start 0 r); auto.
  - intros now' n' Hn. apply Htr. exact Hn.
  - simpl. lia.
Qed.

(** The first half of C1 on the default timeout: two transient failures
    are waited out and the identifier of the third answer is stored. *)
Example Create_two_failures_then_success (tie : nat -> context.Case) :
  Create (stub.flaky 2 0 stub.TokenNotFoundError stub.TokenStillPresentError
            "google-site-verification%3Dxyz" "example.com" "abc123")
         tie context.Background 0
         (stub.request (stub.model "example.com" timeouts.unset))
  = Some {| response :=
              {| Diagnostics := [];
                 State := Some {| Domain := types.StringValue "example.com";
                                  Token := types.StringValue "google-site-verification=abc";
                                  Id := types.StringValue "google-site-verification=xyz";
                                  Timeouts := timeouts.unset |} |};
            returned_at := 120 * Second; attempts := 3; sleeps := 2; exit := ExitEnd |}.
Proof.
  exact (Create_retries_until_success 2 0 tie 0 (stub.model "example.com" timeouts.unset)
           stub.TokenStillPresentError "google-site-verification%3Dxyz"
           "google-site-verification=xyz" "example.com" "abc123" eq_refl eq_refl).
Qed.

(** C1 at the failing input: [Insert] answers token-not-found six times
    and would then succeed; the timeout is the default 300 seconds, so
    six backoffs of 60 seconds exceed it.  [Create] does not fail with a
    timeout error: it returns with no diagnostic at all and no state. *)
Theorem Create_six_failures_default_timeout (tie : nat -> context.Case) :
  exists r,
    Create (stub.flaky 6 0 stub.TokenNotFoundError stub.TokenStillPresentError
              "google-site-verification%3Dxyz" "example.com" "abc123")
           tie context.Background 0
           (stub.request (stub.model "example.com" timeouts.unset)) = Some r /\
    response r = {| Diagnostics := []; State := None |} /\
    exit r = ExitCtxDone /\
    diag.HasError (Diagnostics (response r)) = false.
Proof.
  destruct (Create_gives_up_without_diagnostic
              (stub.flaky 6 0 stub.TokenNotFoundError stub.TokenStillPresentError
                 "google-site-verification%3Dxyz" "example.com" "abc123")
              tie context.Background 0
              (stub.request (stub.model "example.com" timeouts.unset))
              [] (stub.model "example.com" timeouts.unset) 6
              eq_refl eq_refl) as (r & Hr & Hresp & Hexit).
  - lia.
  - reflexivity.
  - intros ctx now n m body Hn. rewrite flaky_Insert_fails by exact Hn. reflexivity.
  - exists r. rewrite Hresp. repeat split; assumption.
Qed.

(** C4 at the failing inputs, under the default timeout of 300 seconds
    and a client that honours its context.  When every answer is the
    transient error (each call taking one second), the deadline strikes
    during the fifth backoff and both [Create] and [Delete] return with
    no diagnostic at all.  When the deadline strikes during the call
    itself, the transport's deadline error is reported with the summary
    and text used for every other API error. *)
Theorem deadline_is_not_reported_as_timeout (tie : nat -> context.Case) :
  let always_transient :=
    stub.honouring (stub.failing 1000000000 stub.TokenNotFoundError stub.TokenStillPresentError) in
  let hanging :=
    stub.honouring (stub.flaky 0 400000000000 stub.TokenNotFoundError
                      stub.TokenStillPresentError "id" "example.com" "abc123") in
  let data := stub.model "example.com" timeouts.unset in
  Create always_transient tie context.Background 0 (stub.request data)
  = Some {| response := {| Diagnostics := []; State := None |};
            returned_at := 300 * Second; attempts := 5; sleeps := 4; exit := ExitCtxDone |}
  /\
  Delete always_transient tie context.Background 0 (stub.request data)
  = Some {| response := {| Diagnostics := []; State := Some data |};
            returned_at := 300 * Second; attempts := 5; sleeps := 4; exit := ExitCtxDone |}
  /\
  Create hanging tie context.Background 0 (stub.request data)
  = Some {| response :=
              {| Diagnostics :=
                   [ {| diag.severity := diag.SeverityError;
                        diag.Summary := "Client Error";
                        diag.Detail := ("Unable to create verification, got error: %s",
                                        [diag.OpError context_DeadlineExceeded]) |} ];
                 State := None |};
            returned_at := 300 * Second; attempts := 1; sleeps := 0;
            exit := ExitClientError |}.
Proof.
  repeat split; vm_compute; reflexivity.
Qed.

(* ================================================================== *)
(** ** What create records *)
(* ================================================================== *)

Lemma is_nil_true (e : error) : errors.is_nil e = true <-> e = nil_error.
Proof. destruct e; simpl; split; congruence. Qed.

(** The state a create loop writes, if any, is the planned model with
    the decoded identifier of an [Insert] that succeeded. *)
Lemma Create_loop_state srv tie ctx data diags (fuel : nat) : forall now n r,
  Create_loop srv tie fuel ctx data diags now n = Some r ->
  (State (response r) = None /\ exit r <> ExitEnd) \/
  (exit r = ExitEnd /\ Diagnostics (response r) = diags /\
   exists t k id,
     siteverification.err (insert_at srv ctx data t k) = nil_error /\
     url.QueryUnescape (siteverification.Id (siteverification.result (insert_at srv ctx data t k)))
     = inl id /\
     State (response r) = Some {| Domain := Domain data; Token := Token data;
                                  Id := types.StringValue id; Timeouts := Timeouts data |}).
Proof.
  induction fuel as [|fuel IH]; intros now n r; [discriminate|].
  cbn [Create_loop].
  destruct (errors.is_nil _) eqn:Hnil; cbn [negb].
  - destruct (url.QueryUnescape _) as [id|bad] eqn:Hq.
    + intros [= <-]. right. cbn. repeat split.
      exists now, n, id. unfold insert_at. rewrite Hq.
      apply is_nil_true in Hnil. auto.
    + intros [= <-]. left. cbn. split; congruence.
  - destruct (checkErr _ _).
    + destruct (context.select _ _ _ _).
      * intros [= <-]. left. cbn. split; congruence.
      * apply IH.
    + intros [= <-]. left. cbn. split; congruence.
Qed.

(** C7: whatever the client does, a create that does not run to its end
    ([Insert] error, identifier that does not decode, context done)
    leaves the state null; a state is written only at the end, without
    error diagnostic, and its identifier is the decoded identifier of an
    [Insert] that succeeded. *)
Theorem Create_records_id_only_on_success srv tie ctx0 start req r :
  Create srv tie ctx0 start req = Some r ->
  let data := snd (Get_ req) in
  let ctx := context.WithTimeout ctx0 start (createTimeout data) in
  (exit r <> ExitEnd -> State (response r) = None) /\
  (forall m, State (response r) = Some m ->
     exit r = ExitEnd /\
     diag.HasError (Diagnostics (response r)) = false /\
     exists t k id,
       siteverification.err (insert_at srv ctx data t k) = nil_error /\
       url.QueryUnescape
         (siteverification.Id (siteverification.result (insert_at srv ctx data t k))) = inl id /\
       m = {| Domain := Domain data; Token := Token data;
              Id := types.StringValue id; Timeouts := Timeouts data |}).
Proof.
  unfold Create. destruct (Get_ req) as [diags data] eqn:Hreq. cbn [snd].
  destruct (diag.HasError diags) eqn:Hd.
  - intros [= <-]. cbn. split; [reflexivity|discriminate].
  - intros Hr. apply Create_loop_state in Hr as [[Hnone Hexit]|(Hexit & Hdiag & t & k & id & H1 & H2 & H3)].
    + split; [auto|]. intros m Hm. congruence.
    + split; [intros; contradiction|].
      intros m Hm. rewrite Hdiag. repeat split; auto.
      exists t, k, id. repeat split; auto. congruence.
Qed.

(** C7 at work: an identifier with a broken escape is not recorded. *)
Lemma Create_records_id_only_on_success_witness :
  exists r,
    Create (stub.flaky 0 0 stub.TokenNotFoundError stub.TokenStillPresentError
              "google-site-verification%3" "example.com" "abc123")
           (stub.always context.After) context.Background 0
           (stub.request (stub.model "example.com" timeouts.unset)) = Some r /\
    exit r = ExitUrlDecode /\ State (response r) = None.
Proof.
  eexists. split; [vm_compute; reflexivity|]. split; [reflexivity|].
  refine (proj1 (Create_records_id_only_on_success
                   (stub.flaky 0 0 stub.TokenNotFoundError stub.TokenStillPresentError
                      "google-site-verification%3" "example.com" "abc123")
                   (stub.always context.After) context.Background 0
                   (stub.request (stub.model "example.com" timeouts.unset)) _ _) _).
  - vm_compute. reflexivity.
  - discriminate.
Defined.

(* ================================================================== *)
(** ** Timeouts *)
(* ================================================================== *)

Lemma done_time_max ctx now t :
  context.done_at ctx = Some t -> context.done_time ctx now = Z.max now t.
Proof. unfold context.done_time. now intros ->. Qed.

(** Under a client that honours its context, a loop entered at [now]
    returns by the instant the context is done (or at [now], if that
    instant is past). *)
Lemma Create_loop_returns_in_time srv tie ctx data diags t (fuel : nat) :
  honours srv -> context.done_at ctx = Some t ->
  forall now n r,
    Create_loop srv tie fuel ctx data diags now n = Some r ->
    returned_at r <= Z.max now t.
Proof.
  intros (Hins & _ & _) Ht.
  induction fuel as [|fuel IH]; intros now n r; [discriminate|].
  cbn [Create_loop].
  pose proof (Hins ctx t now n verificationMethod (insert_body data) Ht) as Hcall.
  destruct (negb (errors.is_nil _)).
  - destruct (checkErr _ _).
    + destruct (context.select _ _ _ _) eqn:Sel.
      * intros [= <-]. cbn. rewrite (done_time_max _ _ _ Ht). lia.
      * intros Hr. apply IH in Hr.
        pose proof (select_After_inv _ _ _ _ _ Ht Sel). lia.
    + intros [= <-]. cbn. lia.
  - destruct (url.QueryUnescape _); intros [= <-]; cbn; lia.
Qed.

Lemma Delete_loop_returns_in_time srv tie ctx data diags t (fuel : nat) :
  honours srv -> context.done_at ctx = Some t ->
  forall now n r,
    Delete_loop srv tie fuel ctx data diags now n = Some r ->
    returned_at r <= Z.max now t.
Proof.
  intros (_ & Hdel & _) Ht.
  induction fuel as [|fuel IH]; intros now n r; [discriminate|].
  cbn [Delete_loop].
  pose proof (Hdel ctx t now n (types.Value (Id data)) Ht) as Hcall.
  destruct (negb (errors.is_nil _)).
  - destruct (checkErr _ _).
    + destruct (context.select _ _ _ _) eqn:Sel.
      * intros [= <-]. cbn. rewrite (done_time_max _ _ _ Ht). lia.
      * intros Hr. apply IH in Hr.
        pose proof (select_After_inv _ _ _ _ _ Ht Sel). lia.
    + intros [= <-]. cbn. lia.
  - intros [= <-]. cbn. lia.
Qed.

Lemma WithTimeout_deadline ctx0 start d :
  exists t, context.done_at (context.WithTimeout ctx0 start d) = Some t /\ t <= start + d.
Proof.
  unfold context.WithTimeout. cbn. destruct (context.done_at ctx0); eexists; split; eauto; lia.
Qed.

(** The transport's treatment of contexts makes any client honour them. *)
Lemma honouring_honours (s : siteverification.Service) : honours (stub.honouring s).
Proof.
  assert (H : forall A ctx t now (c : siteverification.Call A),
            context.done_at ctx = Some t ->
            elapse now (siteverification.took (stub.cut ctx now c)) <= Z.max now t).
  { intros A ctx t now c Ht. unfold stub.cut, elapse. rewrite Ht.
    destruct (t <=? now) eqn:E1; cbn.
    - lia.
    - apply Z.leb_gt in E1.
      destruct (t <=? now + Z.of_N (siteverification.took c)) eqn:E2; cbn.
      + rewrite Z2N.id by lia. lia.
      + apply Z.leb_gt in E2. lia. }
  repeat split; intros; apply H; assumption.
Qed.

(** C5, as the claim words it, fails for reads of the resource: with no
    [read] timeout configured, [Read] works under a 300 second timeout,
    so that a [Get] answered after 100 seconds is not cut short. *)
Lemma Read_default_timeout_is_not_60_seconds :
  let data := stub.model "example.com" timeouts.unset in
  readTimeout data = 300 * Second /\
  readTimeout data <> 60 * Second /\
  Read (stub.honouring (stub.flaky 0 100000000000 stub.TokenNotFoundError
                          stub.TokenStillPresentError "id" "example.com" "abc123"))
       context.Background 0 (stub.request data)
  = {| response := {| Diagnostics := []; State := Some data |};
       returned_at := 100 * Second; attempts := 1; sleeps := 0; exit := ExitEnd |}.
Proof.
  repeat split; try (vm_compute; reflexivity). vm_compute. discriminate.
Qed.

(** The read of the domain data source computes its context but issues
    the call with a bare [Do()]: even a client that honours contexts is
    not cut short by the 60 second timeout. *)
Example Domain_Read_outlasts_its_timeout :
  let data := {| datasource.Domain := types.StringValue "";
                 datasource.RecordType := types.StringValue "";
                 datasource.RecordName := types.StringValue "";
                 datasource.RecordValue := types.StringValue "";
                 datasource.ID := types.StringValue "example.com";
                 datasource.Timeouts := timeouts.unset |} in
  let out := datasource.Domain_Read
               (stub.honouring (stub.flaky 0 100000000000 stub.TokenNotFoundError
                                  stub.TokenStillPresentError "id" "example.com" "abc123"))
               context.Background 0 data in
  datasource.deadline out = Some (60 * Second) /\
  datasource.returned_at out = 100 * Second /\
  datasource.Diagnostics out = [].
Proof. repeat split. Qed.

(** C5 (amended): create, read and delete of the resource each run under
    the timeout the caller configured for that operation, 300 seconds
    (five backoff intervals) when none is configured; the reads of the
    data sources default to 60 seconds.  The timeout bounds the whole
    operation, retries included: under a client that honours its
    context, create and delete return, and do so no later than the
    timeout after they started. *)
Theorem operation_timeouts :
  (forall data, Timeouts data = timeouts.unset ->
     createTimeout data = 300 * Second /\
     readTimeout data = 300 * Second /\
     deleteTimeout data = 300 * Second) /\
  (forall data, datasource.Timeouts data = timeouts.unset ->
     datasource.readTimeout data = 60 * Second) /\
  (forall data d,
     (timeouts.create (Timeouts data) = Some d -> createTimeout data = d) /\
     (timeouts.read (Timeouts data) = Some d -> readTimeout data = d) /\
     (timeouts.delete (Timeouts data) = Some d -> deleteTimeout data = d)) /\
  (forall srv tie ctx0 start req, honours srv ->
     exists r, Create srv tie ctx0 start req = Some r /\
               returned_at r <= Z.max start (start + createTimeout (snd (Get_ req)))) /\
  (forall srv tie ctx0 start req, honours srv ->
     exists r, Delete srv tie ctx0 start req = Some r /\
               returned_at r <= Z.max start (start + deleteTimeout (snd (Get_ req)))) /\
  (forall srv ctx0 start req, honours srv ->
     returned_at (Read srv ctx0 start req)
     <= Z.max start (start + readTimeout (snd (Get_ req)))).
Proof.
  split; [|split; [|split; [|split; [|split]]]].
  - intros data H. unfold createTimeout, readTimeout, deleteTimeout. rewrite H.
    repeat split.
  - intros data H. unfold datasource.readTimeout. rewrite H. reflexivity.
  - intros data d. unfold createTimeout, readTimeout, deleteTimeout,
      timeouts.Create, timeouts.Read, timeouts.Delete.
    repeat split; intros ->; reflexivity.
  - intros srv tie ctx0 start req Hh.
    destruct (Create_returns srv tie ctx0 start req) as [r Hr]. exists r. split; [exact Hr|].
    unfold Create in Hr. destruct (Get_ req) as [diags data]. cbn [snd].
    destruct (diag.HasError diags).
    + injection Hr as <-. cbn. lia.
    + destruct (WithTimeout_deadline ctx0 start (createTimeout data)) as (t & Ht & Hle).
      apply (Create_loop_returns_in_time _ _ _ _ _ t _ Hh Ht) in Hr. lia.
  - intros srv tie ctx0 start req Hh.
    destruct (Delete_returns srv tie ctx0 start req) as [r Hr]. exists r. split; [exact Hr|].
    unfold Delete in Hr. destruct (Get_ req) as [diags data]. cbn [snd].
    destruct (diag.HasError diags).
    + injection Hr as <-. cbn. lia.
    + destruct (WithTimeout_deadline ctx0 start (deleteTimeout data)) as (t & Ht & Hle).
      apply (Delete_loop_returns_in_time _ _ _ _ _ t _ Hh Ht) in Hr. lia.
  - intros srv ctx0 start req (_ & _ & Hget & _).
    unfold Read. destruct (Get_ req) as [diags data]. cbn [snd].
    destruct (diag.HasError diags); [cbn; lia|].
    destruct (WithTimeout_deadline ctx0 start (readTimeout data)) as (t & Ht & Hle).
    pose proof (Hget _ t start (types.Value (Id data)) Ht) as Hcall.
    destruct (negb (errors.is_nil _)); cbn; lia.
Qed.

(** C5 at work: against a client whose answers are always transient,
    the create ends within the configured 90 seconds. *)
Lemma operation_timeouts_witness :
  let data := stub.model "example.com"
                {| timeouts.create := Some (90 * Second);
                   timeouts.read := None; timeouts.delete := None |} in
  createTimeout data = 90 * Second /\
  exists r,
    Create (stub.honouring (stub.failing 1000000000 stub.TokenNotFoundError
                              stub.TokenStillPresentError))
           (stub.always context.After) context.Background 0 (stub.request data) = Some r /\
    returned_at r <= 90 * Second.
Proof.
  intros data.
  destruct operation_timeouts as (_ & _ & Hcfg & Hcreate & _).
  split.
  - exact (proj1 (Hcfg data (90 * Second)) eq_refl).
  - destruct (Hcreate _ (stub.always context.After) context.Background 0 (stub.request data)
                (honouring_honours (stub.failing 1000000000 stub.TokenNotFoundError
                                      stub.TokenStillPresentError))) as (r & Hr & Hle).
    exists r. split; [exact Hr|exact Hle].
Defined.

(* ================================================================== *)
(** ** Import *)
(* ================================================================== *)

(** What [ImportState] does, in terms of its two calls. *)
Lemma ImportState_cases srv ctx start ID :
  let get := siteverification.Get srv ctx start ID in
  let domain := strings.TrimPrefix ID "dns://" in
  let gettoken := siteverification.GetToken srv ctx
                    (elapse start (siteverification.took get)) (import_gettoken domain) in
  response (ImportState srv ctx start ID) =
  if errors.is_nil (siteverification.err get) then
    if errors.is_nil (siteverification.err gettoken) then
      {| Diagnostics := [];
         State := Some {| Id := types.StringValue ID;
                          Domain := types.StringValue domain;
                          Token := types.StringValue
                                     (siteverification.Token (siteverification.result gettoken));
                          Timeouts := timeouts.unset |} |}
    else
      {| Diagnostics :=
           diag.AddError [] "Client Error"
             ("Unable to import verification, got error: %s",
              [diag.OpError (siteverification.err gettoken)]);
         State := None |}
  else
    {| Diagnostics :=
         diag.AddError [] "Client Error"
           ("Unable to import verification, got error: %s",
            [diag.OpError (siteverification.err get)]);
       State := None |}.
Proof.
  intros get domain gettoken. unfold ImportState. fold get.
  destruct (errors.is_nil (siteverification.err get)); cbn [negb]; [|reflexivity].
  fold domain. fold (import_gettoken domain). fold gettoken.
  destruct (errors.is_nil (siteverification.err gettoken)); reflexivity.
Qed.

(** C6, as the claim words it, fails: the identifier [example.com],
    which lacks the [dns://] prefix, is imported without any diagnostic
    when the two calls succeed, and a record is made from it. *)
Lemma ImportState_accepts_identifier_without_prefix :
  response
    (ImportState (stub.flaky 0 0 stub.TokenNotFoundError stub.TokenStillPresentError
                    "id" "example.com" "abc123")
                 context.Background 0 "example.com")
  = {| Diagnostics := [];
       State := Some {| Id := types.StringValue "example.com";
                        Domain := types.StringValue "example.com";
                        Token := types.StringValue "abc123";
                        Timeouts := timeouts.unset |} |}.
Proof. vm_compute. reflexivity. Qed.

(** C6 (amended): an import does not inspect the form of its
    identifier.  It fails, with a "Client Error" diagnostic carrying the
    error and without state, exactly when [Get] on the identifier or
    [GetToken] on the domain fails; the domain is the identifier without
    a leading [dns://], and the identifier itself when it has no such
    prefix. *)
Theorem ImportState_fails_only_with_its_calls srv ctx start ID :
  let get := siteverification.Get srv ctx start ID in
  let domain := strings.TrimPrefix ID "dns://" in
  let gettoken := siteverification.GetToken srv ctx
                    (elapse start (siteverification.took get)) (import_gettoken domain) in
  let resp := response (ImportState srv ctx start ID) in
  (strings.HasPrefix ID "dns://" = false -> domain = ID) /\
  (forall d, ID = ("dns://" ++ d)%string -> domain = d) /\
  (diag.HasError (Diagnostics resp) = true <->
   siteverification.err get <> nil_error \/ siteverification.err gettoken <> nil_error) /\
  (diag.HasError (Diagnostics resp) = true -> State resp = None) /\
  (diag.HasError (Diagnostics resp) = false ->
   State resp = Some {| Id := types.StringValue ID;
                        Domain := types.StringValue domain;
                        Token := types.StringValue
                                   (siteverification.Token (siteverification.result gettoken));
                        Timeouts := timeouts.unset |}).
Proof.
  intros get domain gettoken resp.
  split; [apply TrimPrefix_other|].
  split; [intros d ->; apply TrimPrefix_app|].
  unfold resp. rewrite ImportState_cases. fold get domain gettoken.
  destruct (errors.is_nil (siteverification.err get)) eqn:H1.
  - apply is_nil_true in H1.
    destruct (errors.is_nil (siteverification.err gettoken)) eqn:H2.
    + apply is_nil_true in H2. cbn. repeat split; try discriminate; auto.
      intros [H|H]; congruence.
    + assert (siteverification.err gettoken <> nil_error)
        by (intros E; apply is_nil_true in E; congruence).
      cbn. repeat split; try discriminate; auto.
  - assert (siteverification.err get <> nil_error)
      by (intros E; apply is_nil_true in E; congruence).
    cbn. repeat split; try discriminate; auto.
Qed.

(** C6 at work, on an identifier without the prefix. *)
Lemma ImportState_fails_only_with_its_calls_witness :
  State (response
           (ImportState (stub.flaky 0 0 stub.TokenNotFoundError stub.TokenStillPresentError
                           "id" "example.com" "abc123")
                        context.Background 0 "example.com"))
  = Some {| Id := types.StringValue "example.com";
            Domain := types.StringValue "example.com";
            Token := types.StringValue "abc123";
            Timeouts := timeouts.unset |}.
Proof.
  pose proof (ImportState_fails_only_with_its_calls
                (stub.flaky 0 0 stub.TokenNotFoundError stub.TokenStillPresentError
                   "id" "example.com" "abc123")
                context.Background 0 "example.com") as (_ & _ & _ & _ & H).
  exact (H eq_refl).
Defined.

(** The import of [dns://example.com] against a client whose [Get]
    succeeds and whose [GetToken] for [example.com] answers [abc123]
    yields the record with the identifier as id, [example.com] as
    domain and [abc123] as token, and no diagnostic. *)
Theorem ImportState_example_com srv ctx start :
  let get := siteverification.Get srv ctx start "dns://example.com" in
  let gettoken := siteverification.GetToken srv ctx
                    (elapse start (siteverification.took get))
                    (import_gettoken "example.com") in
  siteverification.err get = nil_error ->
  siteverification.err gettoken = nil_error ->
  siteverification.Token (siteverification.result gettoken) = "abc123" ->
  response (ImportState srv ctx start "dns://example.com")
  = {| Diagnostics := [];
       State := Some {| Id := types.StringValue "dns://example.com";
                        Domain := types.StringValue "example.com";
                        Token := types.StringValue "abc123";
                        Timeouts := timeouts.unset |} |}.
Proof.
  intros get gettoken Hget Htok Hval.
  rewrite ImportState_cases.
  change (strings.TrimPrefix "dns://example.com" "dns://") with "example.com".
  fold get. fold gettoken. rewrite Hget, Htok, Hval. reflexivity.
Qed.

(** At work, against a client that knows the token of [example.com]
    only. *)
Lemma ImportState_example_com_witness :
  response
    (ImportState (stub.flaky 0 7 stub.TokenNotFoundError stub.TokenStillPresentError
                    "id" "example.com" "abc123")
                 context.Background 0 "dns://example.com")
  = {| Diagnostics := [];
       State := Some {| Id := types.StringValue "dns://example.com";
                        Domain := types.StringValue "example.com";
                        Token := types.StringValue "abc123";
                        Timeouts := timeouts.unset |} |}.
Proof.
  exact (ImportState_example_com
           (stub.flaky 0 7 stub.TokenNotFoundError stub.TokenStillPresentError
              "id" "example.com" "abc123")
           context.Background 0 eq_refl eq_refl eq_refl).
Defined.

(* ================================================================== *)
(** ** Decoding of the identifier *)
(* ================================================================== *)

Lemma plus_to_space_percent c : Ascii.eqb (plus_to_space c) "%" = Ascii.eqb c "%".
Proof.
  unfold plus_to_space. destruct (Ascii.eqb c "+") eqn:E; [|reflexivity].
  apply Ascii.eqb_eq in E. subst c. reflexivity.
Qed.

Lemma plus_to_space_ishex c : url.ishex (plus_to_space c) = url.ishex c.
Proof.
  unfold plus_to_space. destruct (Ascii.eqb c "+") eqn:E; [|reflexivity].
  apply Ascii.eqb_eq in E. subst c. reflexivity.
Qed.

Lemma plus_to_space_unhex c : url.unhex (plus_to_space c) = url.unhex c.
Proof.
  unfold plus_to_space. destruct (Ascii.eqb c "+") eqn:E; [|reflexivity].
  apply Ascii.eqb_eq in E. subst c. reflexivity.
Qed.

Lemma plus_to_space_not_plus c : Ascii.eqb (plus_to_space c) "+" = false.
Proof.
  unfold plus_to_space. destruct (Ascii.eqb c "+") eqn:E; [reflexivity|exact E].
Qed.

(** Induction on strings two characters at a time, as [unescape] reads
    them. *)
Lemma string_ind2 (P : string -> Prop) :
  P EmptyString ->
  (forall c s, P s -> (forall a b s', s = String a (String b s') -> P s') -> P (String c s)) ->
  forall s, P s.
Proof.
  intros H0 H2.
  assert (H : forall n s, (String.length s <= n)%nat -> P s).
  { induction n as [|n IH]; intros s Hn.
    - destruct s; [exact H0|simpl in Hn; lia].
    - destruct s as [|c s]; [exact H0|].
      simpl in Hn. apply H2.
      + apply IH. lia.
      + intros a b s' ->. apply IH. simpl in Hn. lia. }
  intros s. apply (H (String.length s)). apply le_n.
Qed.

(** Replacing ['+'] by a space leaves the escapes as well formed, or as
    broken, as they were. *)
Lemma check_escapes_spaces_for_plus (s : string) :
  url.check_escapes (spaces_for_plus s) = None <-> url.check_escapes s = None.
Proof.
  induction s as [|c s IH IH2] using string_ind2.
  - reflexivity.
  - cbn [spaces_for_plus url.check_escapes]. fold (plus_to_space c).
    rewrite plus_to_space_percent.
    destruct (Ascii.eqb c "%"); [|exact IH].
    destruct s as [|a [|b s']]; cbn [spaces_for_plus]; try (split; discriminate).
    fold (plus_to_space a). fold (plus_to_space b).
    rewrite !plus_to_space_ishex.
    destruct (url.ishex a && url.ishex b); [|split; discriminate].
    apply (IH2 a b s' eq_refl).
Qed.

(** Query unescaping is percent-decoding after that replacement. *)
Lemma decode_query_spaces_for_plus (s : string) :
  url.decode url.encodeQueryComponent s = url.decode url.encodePathSegment (spaces_for_plus s).
Proof.
  induction s as [|c s IH IH2] using string_ind2.
  - reflexivity.
  - cbn [spaces_for_plus url.decode]. fold (plus_to_space c).
    rewrite plus_to_space_percent, plus_to_space_not_plus.
    destruct (Ascii.eqb c "%") eqn:Ep.
    + apply Ascii.eqb_eq in Ep. subst c.
      destruct s as [|a [|b s']].
      * reflexivity.
      * rewrite IH. reflexivity.
      * cbn [spaces_for_plus]. fold (plus_to_space a). fold (plus_to_space b).
        rewrite !plus_to_space_unhex. rewrite (IH2 a b s' eq_refl). reflexivity.
    + unfold plus_to_space. destruct (Ascii.eqb c "+"); rewrite IH; reflexivity.
Qed.

Lemma QueryUnescape_as_PathUnescape (s v : string) :
  url.QueryUnescape s = inl v <-> url.PathUnescape (spaces_for_plus s) = inl v.
Proof.
  unfold url.QueryUnescape, url.PathUnescape, url.unescape.
  pose proof (check_escapes_spaces_for_plus s) as H.
  rewrite decode_query_spaces_for_plus.
  destruct (url.check_escapes s), (url.check_escapes (spaces_for_plus s));
    try tauto; try (split; discriminate).
  - destruct H as [H _]. discriminate (H eq_refl).
  - destruct H as [_ H]. discriminate (H eq_refl).
Qed.

(** Without any ['%'], the decoded string is the string with its ['+']
    replaced. *)
Lemma QueryUnescape_no_percent (s : string) :
  no_percent s = true -> url.QueryUnescape s = inl (spaces_for_plus s).
Proof.
  unfold url.QueryUnescape, url.unescape. intros H.
  assert (H1 : url.check_escapes s = None).
  { induction s as [|c s IH]; [reflexivity|].
    cbn in H |- *. apply andb_true_iff in H as [Hc Hs].
    apply negb_true_iff in Hc. rewrite Hc. auto. }
  rewrite H1. f_equal.
  induction s as [|c s IH]; [reflexivity|].
  cbn in H |- *. apply andb_true_iff in H as [Hc Hs].
  apply negb_true_iff in Hc. rewrite Hc.
  assert (url.check_escapes s = None).
  { cbn in H1. rewrite Hc in H1. exact H1. }
  rewrite IH by auto. unfold plus_to_space.
  destruct (Ascii.eqb c "+"); reflexivity.
Qed.

(** Decoding in the loop: when [Insert] succeeds with an identifier whose escapes are
    all well formed, the create loop stores the percent-decoding of the
    identifier in which every ['+'] was first replaced by a space (so a
    ['+'] becomes a space, as query unescaping has it, while [%2B]
    still decodes to ['+']); without any ['%'] that is the identifier
    with its ['+'] replaced.  When an escape is malformed, the loop
    returns with a "Client Error" diagnostic and no state. *)
Theorem Create_loop_query_unescapes_id srv tie ctx data diags now n fuel :
  let call := insert_at srv ctx data now n in
  let rid := siteverification.Id (siteverification.result call) in
  let stored (id : string) :=
    Some {| response :=
              {| Diagnostics := diags;
                 State := Some {| Domain := Domain data; Token := Token data;
                                  Id := types.StringValue id; Timeouts := Timeouts data |} |};
            returned_at := elapse now (siteverification.took call);
            attempts := S n; sleeps := n; exit := ExitEnd |} in
  siteverification.err call = nil_error ->
  (url.check_escapes rid = None ->
   Create_loop srv tie (S fuel) ctx data diags now n
   = stored (url.decode url.encodePathSegment (spaces_for_plus rid))) /\
  (no_percent rid = true ->
   Create_loop srv tie (S fuel) ctx data diags now n = stored (spaces_for_plus rid)) /\
  (forall bad, url.check_escapes rid = Some bad ->
   Create_loop srv tie (S fuel) ctx data diags now n
   = Some {| response :=
               {| Diagnostics :=
                    diag.AddError diags "Client Error"
                      ("failed to urldecode id %s, %s",
                       [diag.OpString rid; diag.OpError (EscapeError bad)]);
                  State := None |};
             returned_at := elapse now (siteverification.took call);
             attempts := S n; sleeps := n; exit := ExitUrlDecode |}).
Proof.
  intros call rid stored Herr.
  assert (Hstep : Create_loop srv tie (S fuel) ctx data diags now n
                  = match url.QueryUnescape rid with
                    | inl id => stored id
                    | inr bad =>
                        Some {| response :=
                                  {| Diagnostics :=
                                       diag.AddError diags "Client Error"
                                         ("failed to urldecode id %s, %s",
                                          [diag.OpString rid; diag.OpError (EscapeError bad)]);
                                     State := None |};
                                returned_at := elapse now (siteverification.took call);
                                attempts := S n; sleeps := n; exit := ExitUrlDecode |}
                    end).
  { cbn [Create_loop]. fold (insert_at srv ctx data now n). fold call. rewrite Herr.
    cbn [errors.is_nil negb]. fold rid. destruct (url.QueryUnescape rid); reflexivity. }
  rewrite Hstep. repeat split.
  - intros Hok.
    assert (Hq : url.PathUnescape (spaces_for_plus rid)
                 = inl (url.decode url.encodePathSegment (spaces_for_plus rid))).
    { unfold url.PathUnescape, url.unescape.
      now rewrite (proj2 (check_escapes_spaces_for_plus rid) Hok). }
    apply QueryUnescape_as_PathUnescape in Hq. now rewrite Hq.
  - intros Hnp. now rewrite (QueryUnescape_no_percent rid Hnp).
  - intros bad Hbad. unfold url.QueryUnescape, url.unescape. now rewrite Hbad.
Qed.

(** At work: the identifier [a+b%2Bc] is stored as [a b+c], the
    identifier [a+b] as [a b], and [a+b%2] is refused. *)
Lemma Create_loop_query_unescapes_id_witness :
  let client (rid : string) :=
    stub.flaky 0 0 stub.TokenNotFoundError stub.TokenStillPresentError rid "example.com" "abc" in
  let data := stub.model "example.com" timeouts.unset in
  let run (rid : string) :=
    Create_loop (client rid) (stub.always context.After) 1 context.Background data [] 0 0 in
  let id_of (r : option Run) :=
    match r with
    | Some r => match State (response r) with
                | Some m => Some (types.Value (Id m))
                | None => None
                end
    | None => None
    end in
  id_of (run "a+b%2Bc") = Some "a b+c" /\
  id_of (run "a+b") = Some "a b" /\
  id_of (run "a+b%2") = None.
Proof.
  intros client data run id_of. unfold run. split; [|split].
  - rewrite (proj1 (Create_loop_query_unescapes_id (client "a+b%2Bc")
                      (stub.always context.After) context.Background data [] 0 0%nat 0%nat
                      eq_refl) eq_refl).
    reflexivity.
  - rewrite (proj1 (proj2 (Create_loop_query_unescapes_id (client "a+b")
                      (stub.always context.After) context.Background data [] 0 0%nat 0%nat
                      eq_refl)) eq_refl).
    reflexivity.
  - rewrite (proj2 (proj2 (Create_loop_query_unescapes_id (client "a+b%2")
                      (stub.always context.After) context.Background data [] 0 0%nat 0%nat
                      eq_refl)) "%2" eq_refl).
    reflexivity.
Defined.

(* ================================================================== *)
(** ** Further properties of the retry loops *)
(* ================================================================== *)

Section LoopBounds.

Variable srv : siteverification.Service.
Variable tie : nat -> context.Case.
Variable ctx : context.Context.
Variable data : DomainResourceModel.
Variable diags : diag.Diagnostics.

Lemma max_attempts_pos t now :
  context.done_at ctx = Some t -> exists m, max_attempts ctx now = S m.
Proof. unfold max_attempts. intros ->. eauto. Qed.

(** A loop entered with attempt [n] makes at least that attempt and at
    most [max_attempts] of them. *)
Lemma Create_loop_attempts t (fuel : nat) : forall now n r,
  context.done_at ctx = Some t ->
  Create_loop srv tie fuel ctx data diags now n = Some r ->
  (n < attempts r <= n + max_attempts ctx now)%nat.
Proof.
  induction fuel as [|fuel IH]; intros now n r Ht; [discriminate|].
  destruct (max_attempts_pos t now Ht) as [m Hm].
  cbn [Create_loop].
  destruct (negb (errors.is_nil _)).
  - destruct (checkErr _ _).
    + destruct (context.select _ _ _ _) eqn:Sel.
      * intros [= <-]. cbn. lia.
      * intros Hr. apply IH in Hr; [|exact Ht].
        pose proof (select_After_inv _ _ _ _ _ Ht Sel) as Hfit.
        pose proof (elapse_le now (siteverification.took
           (siteverification.Insert srv ctx now n verificationMethod (insert_body data)))) as Hel.
        assert (max_attempts ctx
                  (elapse now (siteverification.took
                     (siteverification.Insert srv ctx now n verificationMethod (insert_body data)))
                   + sleepSeconds)%Z <= m)%nat.
        { apply (max_attempts_step ctx now _ t m Ht); lia. }
        lia.
    + intros [= <-]. cbn. lia.
  - destruct (url.QueryUnescape _); intros [= <-]; cbn; lia.
Qed.

Lemma Delete_loop_attempts t (fuel : nat) : forall now n r,
  context.done_at ctx = Some t ->
  Delete_loop srv tie fuel ctx data diags now n = Some r ->
  (n < attempts r <= n + max_attempts ctx now)%nat.
Proof.
  induction fuel as [|fuel IH]; intros now n r Ht; [discriminate|].
  destruct (max_attempts_pos t now Ht) as [m Hm].
  cbn [Delete_loop].
  destruct (negb (errors.is_nil _)).
  - destruct (checkErr _ _).
    + destruct (context.select _ _ _ _) eqn:Sel.
      * intros [= <-]. cbn. lia.
      * intros Hr. apply IH in Hr; [|exact Ht].
        pose proof (select_After_inv _ _ _ _ _ Ht Sel) as Hfit.
        pose proof (elapse_le now (siteverification.took
           (siteverification.Delete srv ctx now n (types.Value (Id data))))) as Hel.
        assert (max_attempts ctx
                  (elapse now (siteverification.took
                     (siteverification.Delete srv ctx now n (types.Value (Id data))))
                   + sleepSeconds)%Z <= m)%nat.
        { apply (max_attempts_step ctx now _ t m Ht); lia. }
        lia.
    + intros [= <-]. cbn. lia.
  - intros [= <-]. cbn. lia.
Qed.

(** Every attempt but the last is followed by a whole backoff: the
    sleeps are one fewer than the attempts, and the loop cannot return
    before they have passed. *)
Lemma Create_loop_spacing (fuel : nat) : forall now n r,
  Create_loop srv tie fuel ctx data diags now n = Some r ->
  attempts r = S (sleeps r) /\ (n <= sleeps r)%nat /\
  now + (Z.of_nat (sleeps r) - Z.of_nat n) * sleepSeconds <= returned_at r.
Proof.
  induction fuel as [|fuel IH]; intros now n r; [discriminate|].
  cbn [Create_loop].
  pose proof (elapse_le now (siteverification.took
     (siteverification.Insert srv ctx now n verificationMethod (insert_body data)))) as Hel.
  destruct (negb (errors.is_nil _)).
  - destruct (checkErr _ _).
    + destruct (context.select _ _ _ _) eqn:Sel.
      * intros [= <-]. cbn. unfold context.done_time.
        destruct (context.done_at ctx); repeat split; lia.
      * intros Hr. apply IH in Hr as (H1 & H2 & H3). repeat split; lia.
    + intros [= <-]. cbn. repeat split; lia.
  - destruct (url.QueryUnescape _); intros [= <-]; cbn; repeat split; lia.
Qed.

Lemma Delete_loop_spacing (fuel : nat) : forall now n r,
  Delete_loop srv tie fuel ctx data diags now n = Some r ->
  attempts r = S (sleeps r) /\ (n <= sleeps r)%nat /\
  now + (Z.of_nat (sleeps r) - Z.of_nat n) * sleepSeconds <= returned_at r.
Proof.
  induction fuel as [|fuel IH]; intros now n r; [discriminate|].
  cbn [Delete_loop].
  pose proof (elapse_le now (siteverification.took
     (siteverification.Delete srv ctx now n (types.Value (Id data))))) as Hel.
  destruct (negb (errors.is_nil _)).
  - destruct (checkErr _ _).
    + destruct (context.select _ _ _ _) eqn:Sel.
      * intros [= <-]. cbn. unfold context.done_time.
        destruct (context.done_at ctx); repeat split; lia.
      * intros Hr. apply IH in Hr as (H1 & H2 & H3). repeat split; lia.
    + intros [= <-]. cbn. repeat split; lia.
  - intros [= <-]. cbn. repeat split; lia.
Qed.

(** What a loop leaves in the diagnostics: nothing, or one "Client
    Error" after those it was handed; it adds one exactly when it
    leaves after an error of a call or of the decoding. *)
Lemma Create_loop_diagnostics (fuel : nat) : forall now n r,
  Create_loop srv tie fuel ctx data diags now n = Some r ->
  (Diagnostics (response r) = diags /\ (exit r = ExitEnd \/ exit r = ExitCtxDone)) \/
  (exists detail, Diagnostics (response r) = diags ++ [client_error detail]
                  /\ (exit r = ExitClientError \/ exit r = ExitUrlDecode)).
Proof.
  induction fuel as [|fuel IH]; intros now n r; [discriminate|].
  cbn [Create_loop].
  destruct (negb (errors.is_nil _)).
  - destruct (checkErr _ _).
    + destruct (context.select _ _ _ _); [|apply IH].
      intros [= <-]. left. cbn. auto.
    + intros [= <-]. right. cbn. eexists. split; [reflexivity|auto].
  - destruct (url.QueryUnescape _); intros [= <-]; cbn.
    + left. auto.
    + right. eexists. split; [reflexivity|auto].
Qed.

Lemma Delete_loop_diagnostics (fuel : nat) : forall now n r,
  Delete_loop srv tie fuel ctx data diags now n = Some r ->
  State (response r) = Some data /\
  ((Diagnostics (response r) = diags /\ (exit r = ExitEnd \/ exit r = ExitCtxDone)) \/
   (exists detail, Diagnostics (response r) = diags ++ [client_error detail]
                   /\ exit r = ExitClientError)).
Proof.
  induction fuel as [|fuel IH]; intros now n r; [discriminate|].
  cbn [Delete_loop].
  destruct (negb (errors.is_nil _)).
  - destruct (checkErr _ _).
    + destruct (context.select _ _ _ _); [|apply IH].
      intros [= <-]. cbn. auto.
    + intros [= <-]. cbn. split; [reflexivity|]. right. eexists. split; [reflexivity|auto].
  - intros [= <-]. cbn. auto.
Qed.

End LoopBounds.

Lemma HasError_client_error diags detail :
  diag.HasError (diags ++ [client_error detail]) = true.
Proof.
  unfold diag.HasError. rewrite existsb_app. cbn. apply orb_true_r.
Qed.

Lemma max_attempts_WithTimeout ctx0 start d :
  (max_attempts (context.WithTimeout ctx0 start d) start
   <= S (Z.to_nat (d / (60 * Second))))%nat.
Proof.
  unfold max_attempts, context.WithTimeout. cbn [context.done_at].
  change sleepSeconds with (60 * Second).
  assert (Hp : 0 < 60 * Second) by reflexivity.
  set (t := match context.done_at ctx0 with
            | Some p => Z.min p (start + d)
            | None => start + d
            end).
  assert (Ht : t - start <= d) by (unfold t; destruct (context.done_at ctx0); lia).
  pose proof (Z.div_le_mono _ _ _ Hp Ht). lia.
Qed.

Section LoopShape.

Variable srv : siteverification.Service.
Variable tie : nat -> context.Case.
Variable ctx : context.Context.
Variable data : DomainResourceModel.
Variable diags : diag.Diagnostics.

Lemma insert_nth_S now n j :
  insert_nth srv ctx data now n (S j)
  = insert_nth srv ctx data
      (elapse now (siteverification.took (insert_at srv ctx data now n)) + sleepSeconds) (S n) j.
Proof.
  unfold insert_nth, insert_clock. cbn [clock]. rewrite Nat.add_succ_r. reflexivity.
Qed.

Lemma delete_nth_S now n j :
  delete_nth srv ctx data now n (S j)
  = delete_nth srv ctx data
      (elapse now (siteverification.took (delete_at srv ctx data now n)) + sleepSeconds) (S n) j.
Proof.
  unfold delete_nth, delete_clock. cbn [clock]. rewrite Nat.add_succ_r. reflexivity.
Qed.

Lemma insert_nth_0 now n : insert_nth srv ctx data now n 0 = insert_at srv ctx data now n.
Proof. unfold insert_nth, insert_clock. cbn [clock]. now rewrite Nat.add_0_r. Qed.

Lemma delete_nth_0 now n : delete_nth srv ctx data now n 0 = delete_at srv ctx data now n.
Proof. unfold delete_nth, delete_clock. cbn [clock]. now rewrite Nat.add_0_r. Qed.

(** The shape of every run of the create loop: some number [k] of
    transient answers, each waited out, then an attempt that ends the
    loop, either by its answer or because the context cuts its backoff. *)
Lemma Create_loop_shape (fuel : nat) : forall now n r,
  Create_loop srv tie fuel ctx data diags now n = Some r ->
  exists k,
    (forall i, (i < k)%nat ->
       checkErr (siteverification.err (insert_nth srv ctx data now n i)) errTokenNotFound = true /\
       insert_backoff_fits srv tie ctx data now n i) /\
    attempts r = S (n + k) /\ sleeps r = (n + k)%nat /\
    let last := insert_nth srv ctx data now n k in
    let t := elapse (insert_clock srv ctx data now n k) (siteverification.took last) in
    (checkErr (siteverification.err last) errTokenNotFound = false /\
     response r = fst (create_end diags data last) /\
     exit r = snd (create_end diags data last) /\
     returned_at r = t)
    \/
    (checkErr (siteverification.err last) errTokenNotFound = true /\
     context.select (tie (n + k)) ctx t sleepSeconds = context.Done /\
     response r = {| Diagnostics := diags; State := None |} /\
     exit r = ExitCtxDone /\
     returned_at r = context.done_time ctx t).
Proof.
  induction fuel as [|fuel IH]; intros now n r; [discriminate|].
  cbn [Create_loop]. fold (insert_at srv ctx data now n).
  destruct (errors.is_nil (siteverification.err (insert_at srv ctx data now n))) eqn:Hnil;
    cbn [negb].
  - assert (Hchk : checkErr (siteverification.err (insert_at srv ctx data now n))
                     errTokenNotFound = false).
    { apply is_nil_true in Hnil. rewrite Hnil. reflexivity. }
    intros Hr. exists 0%nat. split; [intros i Hi; lia|].
    cbn zeta. rewrite insert_nth_0. unfold insert_clock. cbn [clock]. rewrite Nat.add_0_r.
    unfold create_end. rewrite Hnil.
    destruct (url.QueryUnescape _); injection Hr as <-; cbn; repeat split; left; auto.
  - destruct (checkErr (siteverification.err (insert_at srv ctx data now n)) errTokenNotFound)
      eqn:Hchk.
    + destruct (context.select _ _ _ _) eqn:Sel.
      * intros [= <-]. exists 0%nat. split; [intros i Hi; lia|].
        cbn zeta. rewrite insert_nth_0. unfold insert_clock. cbn [clock]. rewrite Nat.add_0_r.
        cbn. repeat split. right. auto.
      * intros Hr. apply IH in Hr as (k & Hretry & Ha & Hs & Hlast).
        exists (S k). split.
        { intros [|i] Hi.
          - rewrite insert_nth_0. split; [exact Hchk|].
            unfold insert_backoff_fits. rewrite insert_nth_0.
            unfold insert_clock. cbn [clock]. rewrite Nat.add_0_r. exact Sel.
          - specialize (Hretry i ltac:(lia)).
            unfold insert_backoff_fits in *. rewrite insert_nth_S.
            unfold insert_clock in *. cbn [clock]. rewrite Nat.add_succ_r. exact Hretry. }
        rewrite Nat.add_succ_r. split; [exact Ha|]. split; [exact Hs|].
        cbn zeta in *. rewrite insert_nth_S.
        unfold insert_clock in *. cbn [clock]. exact Hlast.
    + intros [= <-]. exists 0%nat. split; [intros i Hi; lia|].
      cbn zeta. rewrite insert_nth_0. unfold insert_clock. cbn [clock]. rewrite Nat.add_0_r.
      unfold create_end. rewrite Hnil. cbn. repeat split. left. auto.
Qed.

Lemma Delete_loop_shape (fuel : nat) : forall now n r,
  Delete_loop srv tie fuel ctx data diags now n = Some r ->
  exists k,
    (forall i, (i < k)%nat ->
       checkErr (siteverification.err (delete_nth srv ctx data now n i)) errTokenExists = true /\
       delete_backoff_fits srv tie ctx data now n i) /\
    attempts r = S (n + k) /\ sleeps r = (n + k)%nat /\
    State (response r) = Some data /\
    let last := delete_nth srv ctx data now n k in
    let t := elapse (delete_clock srv ctx data now n k) (siteverification.took last) in
    (siteverification.err last = nil_error /\
     Diagnostics (response r) = diags /\ exit r = ExitEnd /\ returned_at r = t)
    \/
    (siteverification.err last <> nil_error /\
     checkErr (siteverification.err last) errTokenExists = false /\
     Diagnostics (response r)
     = diag.AddError diags "Client Error"
         ("Unable to delete verification, got error: %s",
          [diag.OpError (siteverification.err last)]) /\
     exit r = ExitClientError /\ returned_at r = t)
    \/
    (checkErr (siteverification.err last) errTokenExists = true /\
     context.select (tie (n + k)) ctx t sleepSeconds = context.Done /\
     Diagnostics (response r) = diags /\
     exit r = ExitCtxDone /\
     returned_at r = context.done_time ctx t).
Proof.
  induction fuel as [|fuel IH]; intros now n r; [discriminate|].
  cbn [Delete_loop]. fold (delete_at srv ctx data now n).
  destruct (errors.is_nil (siteverification.err (delete_at srv ctx data now n))) eqn:Hnil;
    cbn [negb].
  - intros [= <-]. exists 0%nat. split; [intros i Hi; lia|].
    cbn zeta. rewrite delete_nth_0. unfold delete_clock. cbn [clock]. rewrite Nat.add_0_r.
    apply is_nil_true in Hnil. cbn. repeat split. left. auto.
  - assert (Hne : siteverification.err (delete_at srv ctx data now n) <> nil_error).
    { intros E. apply is_nil_true in E. congruence. }
    destruct (checkErr (siteverification.err (delete_at srv ctx data now n)) errTokenExists)
      eqn:Hchk.
    + destruct (context.select _ _ _ _) eqn:Sel.
      * intros [= <-]. exists 0%nat. split; [intros i Hi; lia|].
        cbn zeta. rewrite delete_nth_0. unfold delete_clock. cbn [clock]. rewrite Nat.add_0_r.
        cbn. repeat split. right. right. auto.
      * intros Hr. apply IH in Hr as (k & Hretry & Ha & Hs & Hst & Hlast).
        exists (S k). split.
        { intros [|i] Hi.
          - rewrite delete_nth_0. split; [exact Hchk|].
            unfold delete_backoff_fits. rewrite delete_nth_0.
            unfold delete_clock. cbn [clock]. rewrite Nat.add_0_r. exact Sel.
          - specialize (Hretry i ltac:(lia)).
            unfold delete_backoff_fits in *. rewrite delete_nth_S.
            unfold delete_clock in *. cbn [clock]. rewrite Nat.add_succ_r. exact Hretry. }
        rewrite Nat.add_succ_r. split; [exact Ha|]. split; [exact Hs|]. split; [exact Hst|].
        cbn zeta in *. rewrite delete_nth_S.
        unfold delete_clock in *. cbn [clock]. exact Hlast.
    + intros [= <-]. exists 0%nat. split; [intros i Hi; lia|].
      cbn zeta. rewrite delete_nth_0. unfold delete_clock. cbn [clock]. rewrite Nat.add_0_r.
      cbn. repeat split. right. left. auto.
Qed.

End LoopShape.

(** X1: whatever the client answers, a create whose plan decodes makes
    at least one [Insert] call and at most one more than the number of
    whole backoff intervals in its timeout; it sleeps once between two
    calls, and cannot return before those sleeps have passed. *)
Theorem Create_attempts_and_pace srv tie ctx0 start req :
  diag.HasError (fst (Get_ req)) = false ->
  exists r,
    Create srv tie ctx0 start req = Some r /\
    (1 <= attempts r <= S (Z.to_nat (createTimeout (snd (Get_ req)) / (60 * Second))))%nat /\
    attempts r = S (sleeps r) /\
    start + Z.of_nat (sleeps r) * (60 * Second) <= returned_at r.
Proof.
  intros Hd. destruct (Create_returns srv tie ctx0 start req) as [r Hr].
  exists r. split; [exact Hr|].
  unfold Create in Hr. destruct (Get_ req) as [diags data]. cbn [fst snd] in *.
  rewrite Hd in Hr.
  destruct (WithTimeout_deadline ctx0 start (createTimeout data)) as (t & Ht & _).
  pose proof (Create_loop_attempts _ _ _ _ _ t _ _ _ _ Ht Hr) as Ha.
  pose proof (Create_loop_spacing _ _ _ _ _ _ _ _ _ Hr) as (Hs1 & Hs2 & Hs3).
  pose proof (max_attempts_WithTimeout ctx0 start (createTimeout data)).
  change sleepSeconds with (60 * Second) in Hs3.
  repeat split; try lia.
Qed.

(** X1 at work: under the default timeout a client that always answers
    the transient error is asked at most six times. *)
Lemma Create_attempts_and_pace_witness :
  exists r,
    Create (stub.failing 0 stub.TokenNotFoundError stub.TokenStillPresentError)
           (stub.always context.After) context.Background 0
           (stub.request (stub.model "example.com" timeouts.unset)) = Some r /\
    (1 <= attempts r <= 6)%nat.
Proof.
  destruct (Create_attempts_and_pace
              (stub.failing 0 stub.TokenNotFoundError stub.TokenStillPresentError)
              (stub.always context.After) context.Background 0
              (stub.request (stub.model "example.com" timeouts.unset)) eq_refl)
    as (r & Hr & Ha & _).
  exists r. split; [exact Hr|exact Ha].
Defined.

(** X2: the same for delete and its [Delete] calls. *)
Theorem Delete_attempts_and_pace srv tie ctx0 start req :
  diag.HasError (fst (Get_ req)) = false ->
  exists r,
    Delete srv tie ctx0 start req = Some r /\
    (1 <= attempts r <= S (Z.to_nat (deleteTimeout (snd (Get_ req)) / (60 * Second))))%nat /\
    attempts r = S (sleeps r) /\
    start + Z.of_nat (sleeps r) * (60 * Second) <= returned_at r.
Proof.
  intros Hd. destruct (Delete_returns srv tie ctx0 start req) as [r Hr].
  exists r. split; [exact Hr|].
  unfold Delete in Hr. destruct (Get_ req) as [diags data]. cbn [fst snd] in *.
  rewrite Hd in Hr.
  destruct (WithTimeout_deadline ctx0 start (deleteTimeout data)) as (t & Ht & _).
  pose proof (Delete_loop_attempts _ _ _ _ _ t _ _ _ _ Ht Hr) as Ha.
  pose proof (Delete_loop_spacing _ _ _ _ _ _ _ _ _ Hr) as (Hs1 & Hs2 & Hs3).
  pose proof (max_attempts_WithTimeout ctx0 start (deleteTimeout data)).
  change sleepSeconds with (60 * Second) in Hs3.
  repeat split; try lia.
Qed.

(** X2 at work, with a delete timeout of 15 minutes. *)
Lemma Delete_attempts_and_pace_witness :
  exists r,
    Delete (stub.failing 0 stub.TokenNotFoundError stub.TokenStillPresentError)
           (stub.always context.After) context.Background 0
           (stub.request (stub.model "example.com"
                            {| timeouts.create := None; timeouts.read := None;
                               timeouts.delete := Some (900 * Second) |})) = Some r /\
    (1 <= attempts r <= 16)%nat.
Proof.
  destruct (Delete_attempts_and_pace
              (stub.failing 0 stub.TokenNotFoundError stub.TokenStillPresentError)
              (stub.always context.After) context.Background 0
              (stub.request (stub.model "example.com"
                               {| timeouts.create := None; timeouts.read := None;
                                  timeouts.delete := Some (900 * Second) |})) eq_refl)
    as (r & Hr & Ha & _).
  exists r. split; [exact Hr|exact Ha].
Defined.

(** X3: every run of a create whose plan decodes has one shape.  Some
    number [k] of [Insert] answers are the transient error and are each
    followed by a whole backoff; attempt [k] ends the run, either with
    what its answer gives (the stored identifier, or a "Client Error"),
    or, when that answer is transient too and the context is done before
    its backoff ends, with no diagnostic and no state. *)
Theorem Create_run_shape srv tie ctx0 start req :
  diag.HasError (fst (Get_ req)) = false ->
  let diags := fst (Get_ req) in
  let data := snd (Get_ req) in
  let ctx := context.WithTimeout ctx0 start (createTimeout data) in
  exists r k,
    Create srv tie ctx0 start req = Some r /\
    (forall i, (i < k)%nat ->
       checkErr (siteverification.err (insert_nth srv ctx data start 0 i)) errTokenNotFound = true /\
       insert_backoff_fits srv tie ctx data start 0 i) /\
    attempts r = S k /\ sleeps r = k /\
    let last := insert_nth srv ctx data start 0 k in
    let t := elapse (insert_clock srv ctx data start 0 k) (siteverification.took last) in
    (checkErr (siteverification.err last) errTokenNotFound = false /\
     response r = fst (create_end diags data last) /\
     exit r = snd (create_end diags data last) /\
     returned_at r = t)
    \/
    (checkErr (siteverification.err last) errTokenNotFound = true /\
     context.select (tie k) ctx t sleepSeconds = context.Done /\
     response r = {| Diagnostics := diags; State := None |} /\
     exit r = ExitCtxDone /\
     returned_at r = context.done_time ctx t).
Proof.
  intros Hd diags data ctx.
  destruct (Create_returns srv tie ctx0 start req) as [r Hr].
  exists r. unfold Create in Hr. subst diags data ctx.
  destruct (Get_ req) as [diags data] eqn:Hreq. cbn [fst snd] in *.
  rewrite Hd in Hr.
  destruct (Create_loop_shape _ _ _ _ _ _ _ _ _ Hr) as (k & H1 & H2 & H3 & H4).
  exists k. split.
  - unfold Create. rewrite Hreq, Hd. exact Hr.
  - split; [exact H1|]. split; [exact H2|]. split; [exact H3|]. exact H4.
Qed.

(** X3 at work: the number of attempts of a concrete run is one more
    than the number of answers that were waited out. *)
Lemma Create_run_shape_witness :
  exists r k,
    Create (stub.flaky 2 0 stub.TokenNotFoundError stub.TokenStillPresentError
              "id" "example.com" "abc123")
           (stub.always context.After) context.Background 0
           (stub.request (stub.model "example.com" timeouts.unset)) = Some r /\
    attempts r = S k /\ sleeps r = k.
Proof.
  destruct (Create_run_shape
              (stub.flaky 2 0 stub.TokenNotFoundError stub.TokenStillPresentError
                 "id" "example.com" "abc123")
              (stub.always context.After) context.Background 0
              (stub.request (stub.model "example.com" timeouts.unset)) eq_refl)
    as (r & k & Hr & _ & Ha & Hs & _).
  exists r, k. repeat split; assumption.
Defined.

(** X4: every run of a delete whose prior state decodes has one shape.
    Some number [k] of [Delete] answers are the token-still-present
    error and are each followed by a whole backoff; attempt [k] ends the
    run: without diagnostic when it carries no error, with a "Client
    Error" when it carries another error, and without diagnostic either
    when it is transient too and the context is done before its backoff
    ends.  The state is never written. *)
Theorem Delete_run_shape srv tie ctx0 start req :
  diag.HasError (fst (Get_ req)) = false ->
  let diags := fst (Get_ req) in
  let data := snd (Get_ req) in
  let ctx := context.WithTimeout ctx0 start (deleteTimeout data) in
  exists r k,
    Delete srv tie ctx0 start req = Some r /\
    (forall i, (i < k)%nat ->
       checkErr (siteverification.err (delete_nth srv ctx data start 0 i)) errTokenExists = true /\
       delete_backoff_fits srv tie ctx data start 0 i) /\
    attempts r = S k /\ sleeps r = k /\
    State (response r) = Some data /\
    let last := delete_nth srv ctx data start 0 k in
    let t := elapse (delete_clock srv ctx data start 0 k) (siteverification.took last) in
    (siteverification.err last = nil_error /\
     Diagnostics (response r) = diags /\ exit r = ExitEnd /\ returned_at r = t)
    \/
    (siteverification.err last <> nil_error /\
     checkErr (siteverification.err last) errTokenExists = false /\
     Diagnostics (response r)
     = diag.AddError diags "Client Error"
         ("Unable to delete verification, got error: %s",
          [diag.OpError (siteverification.err last)]) /\
     exit r = ExitClientError /\ returned_at r = t)
    \/
    (checkErr (siteverification.err last) errTokenExists = true /\
     context.select (tie k) ctx t sleepSeconds = context.Done /\
     Diagnostics (response r) = diags /\
     exit r = ExitCtxDone /\
     returned_at r = context.done_time ctx t).
Proof.
  intros Hd diags data ctx.
  destruct (Delete_returns srv tie ctx0 start req) as [r Hr].
  exists r. unfold Delete in Hr. subst diags data ctx.
  destruct (Get_ req) as [diags data] eqn:Hreq. cbn [fst snd] in *.
  rewrite Hd in Hr.
  destruct (Delete_loop_shape _ _ _ _ _ _ _ _ _ Hr) as (k & H1 & H2 & H3 & H4 & H5).
  exists k. split.
  - unfold Delete. rewrite Hreq, Hd. exact Hr.
  - split; [exact H1|]. split; [exact H2|]. split; [exact H3|]. split; [exact H4|]. exact H5.
Qed.

(** X4 at work. *)
Lemma Delete_run_shape_witness :
  exists r k,
    Delete (stub.flaky 1 0 stub.TokenNotFoundError stub.TokenStillPresentError
              "id" "example.com" "abc123")
           (stub.always context.After) context.Background 0
           (stub.request (stub.model "example.com" timeouts.unset)) = Some r /\
    attempts r = S k /\
    State (response r) = Some (stub.model "example.com" timeouts.unset).
Proof.
  destruct (Delete_run_shape
              (stub.flaky 1 0 stub.TokenNotFoundError stub.TokenStillPresentError
                 "id" "example.com" "abc123")
              (stub.always context.After) context.Background 0
              (stub.request (stub.model "example.com" timeouts.unset)) eq_refl)
    as (r & k & Hr & _ & Ha & _ & Hst & _).
  exists r, k. repeat split; assumption.
Defined.

(** The three ways a create loop ends. *)
Lemma Create_loop_outcome srv tie ctx data diags (fuel : nat) : forall now n r,
  Create_loop srv tie fuel ctx data diags now n = Some r ->
  (exit r = ExitEnd /\ (exists m, State (response r) = Some m) /\
   Diagnostics (response r) = diags)
  \/
  ((exit r = ExitClientError \/ exit r = ExitUrlDecode) /\ State (response r) = None /\
   exists detail, Diagnostics (response r) = diags ++ [client_error detail])
  \/
  (exit r = ExitCtxDone /\ State (response r) = None /\ Diagnostics (response r) = diags /\
   exists t, context.done_at ctx = Some t /\ t <= returned_at r).
Proof.
  induction fuel as [|fuel IH]; intros now n r; [discriminate|].
  cbn [Create_loop].
  destruct (negb (errors.is_nil _)).
  - destruct (checkErr _ _).
    + destruct (context.select _ _ _ _) eqn:Sel; [|apply IH].
      intros [= <-]. right. right. cbn. repeat split.
      destruct (select_Done_inv _ _ _ _ Sel) as (t & Ht & _).
      exists t. split; [exact Ht|]. rewrite (done_time_max _ _ _ Ht). lia.
    + intros [= <-]. right. left. cbn. split; [auto|]. split; [reflexivity|].
      eexists. reflexivity.
  - destruct (url.QueryUnescape _); intros [= <-]; cbn.
    + left. repeat split. eexists. reflexivity.
    + right. left. split; [auto|]. split; [reflexivity|]. eexists. reflexivity.
Qed.

(** X5: a create whose plan decodes ends in exactly one of three ways:
    with a state and no new diagnostic; with one "Client Error" added
    and no state; or with neither state nor diagnostic, which happens
    only by the context being done, no earlier than its done instant. *)
Theorem Create_outcomes srv tie ctx0 start req :
  diag.HasError (fst (Get_ req)) = false ->
  let diags := fst (Get_ req) in
  let ctx := context.WithTimeout ctx0 start (createTimeout (snd (Get_ req))) in
  exists r,
    Create srv tie ctx0 start req = Some r /\
    ((exit r = ExitEnd /\ (exists m, State (response r) = Some m) /\
      diag.HasError (Diagnostics (response r)) = false /\
      Diagnostics (response r) = diags)
     \/
     ((exit r = ExitClientError \/ exit r = ExitUrlDecode) /\ State (response r) = None /\
      diag.HasError (Diagnostics (response r)) = true /\
      exists detail, Diagnostics (response r) = diags ++ [client_error detail])
     \/
     (exit r = ExitCtxDone /\ State (response r) = None /\
      diag.HasError (Diagnostics (response r)) = false /\
      Diagnostics (response r) = diags /\
      exists t, context.done_at ctx = Some t /\ t <= start + createTimeout (snd (Get_ req))
                /\ t <= returned_at r)).
Proof.
  intros Hd diags ctx.
  destruct (Create_returns srv tie ctx0 start req) as [r Hr].
  exists r. split; [exact Hr|].
  unfold Create in Hr. subst diags ctx.
  destruct (Get_ req) as [diags data]. cbn [fst snd] in *. rewrite Hd in Hr.
  destruct (Create_loop_outcome _ _ _ _ _ _ _ _ _ Hr)
    as [(He & Hs & Hdg)|[(He & Hs & detail & Hdg)|(He & Hs & Hdg & t & Ht & Hle)]].
  - left. rewrite Hdg. auto.
  - right. left. rewrite Hdg. repeat split; auto.
    + apply HasError_client_error.
    + exists detail. reflexivity.
  - right. right. rewrite Hdg. repeat split; auto.
    exists t. split; [exact Ht|]. split; [|exact Hle].
    destruct (WithTimeout_deadline ctx0 start (createTimeout data)) as (t' & Ht' & Hle').
    congruence.
Qed.

(** X5 at work: a run that ends with neither state nor diagnostic. *)
Lemma Create_outcomes_witness :
  exists r,
    Create (stub.failing 0 stub.TokenNotFoundError stub.TokenStillPresentError)
           (stub.always context.Done) context.Background 0
           (stub.request (stub.model "example.com" timeouts.unset)) = Some r /\
    exit r = ExitCtxDone /\ 300 * Second <= returned_at r.
Proof.
  destruct (Create_outcomes
              (stub.failing 0 stub.TokenNotFoundError stub.TokenStillPresentError)
              (stub.always context.Done) context.Background 0
              (stub.request (stub.model "example.com" timeouts.unset)) eq_refl)
    as (r & Hr & H).
  exists r. split; [exact Hr|].
  assert (Hrun : Create (stub.failing 0 stub.TokenNotFoundError stub.TokenStillPresentError)
                   (stub.always context.Done) context.Background 0
                   (stub.request (stub.model "example.com" timeouts.unset))
                 = Some {| response := {| Diagnostics := []; State := None |};
                           returned_at := 300 * Second; attempts := 5; sleeps := 4;
                           exit := ExitCtxDone |})
    by (vm_compute; reflexivity).
  rewrite Hrun in Hr. injection Hr as <-. cbn. split; [reflexivity|].
  destruct H as [(He & _)|[([He|He] & _)|(_ & _ & _ & _ & t & Ht & _ & Hle)]];
    try discriminate He.
  cbn in Ht, Hle. injection Ht as <-. exact Hle.
Defined.

(** X6: the state a create wrote can be read back.  The read asks [Get]
    for the decoded identifier that create stored, under the read
    timeout of the plan, makes that one call and never sleeps; when
    [Get] succeeds it writes the very same state back, and when [Get]
    fails it reports the error and writes none. *)
Theorem Read_after_Create srv tie ctx0 start req r m :
  Create srv tie ctx0 start req = Some r ->
  State (response r) = Some m ->
  forall srv' ctx1 start',
    let get := siteverification.Get srv'
                 (context.WithTimeout ctx1 start' (readTimeout (snd (Get_ req))))
                 start' (types.Value (Id m)) in
    let read := Read srv' ctx1 start' {| Get_ := ([], m) |} in
    (exists t k,
       url.QueryUnescape
         (siteverification.Id
            (siteverification.result
               (insert_at srv (context.WithTimeout ctx0 start (createTimeout (snd (Get_ req))))
                  (snd (Get_ req)) t k)))
       = inl (types.Value (Id m))) /\
    attempts read = 1%nat /\ sleeps read = 0%nat /\
    returned_at read = elapse start' (siteverification.took get) /\
    (siteverification.err get = nil_error ->
     response read = {| Diagnostics := []; State := Some m |}) /\
    (siteverification.err get <> nil_error ->
     response read
     = {| Diagnostics :=
            [client_error ("Unable to read verification, got error: %s",
                           [diag.OpError (siteverification.err get)])];
          State := None |}).
Proof.
  intros Hr Hm srv' ctx1 start' get read.
  unfold Create in Hr. destruct (Get_ req) as [diags data]. cbn [snd] in *.
  destruct (diag.HasError diags); [injection Hr as <-; discriminate Hm|].
  apply Create_loop_state in Hr as [[Hnone _]|(_ & _ & t & k & id & H1 & H2 & H3)];
    [congruence|].
  rewrite H3 in Hm. injection Hm as <-. cbn [Id types.Value types.StringValue] in *.
  split; [exists t, k; exact H2|].
  subst read. unfold Read. cbn [Get_ diag.HasError existsb].
  set (g := siteverification.Get srv' _ start' _).
  change g with get. clear g.
  destruct (errors.is_nil (siteverification.err get)) eqn:Hnil; cbn [negb].
  - apply is_nil_true in Hnil. cbn. repeat split; auto. intros E. congruence.
  - cbn. repeat split; auto. intros E. apply is_nil_true in E. congruence.
Qed.

(** X6 at work. *)
Lemma Read_after_Create_witness :
  let client := stub.flaky 0 0 stub.TokenNotFoundError stub.TokenStillPresentError
                  "a%3Db" "example.com" "abc123" in
  let m := {| Domain := types.StringValue "example.com";
              Token := types.StringValue "google-site-verification=abc";
              Id := types.StringValue "a=b"; Timeouts := timeouts.unset |} in
  response (Read client context.Background 10 {| Get_ := ([], m) |})
  = {| Diagnostics := []; State := Some m |}.
Proof.
  intros client m.
  refine (proj1 (proj2 (proj2 (proj2 (proj2
            (Read_after_Create client (stub.always context.After) context.Background 0
               (stub.request (stub.model "example.com" timeouts.unset)) _ m _ _
               client context.Background 10))))) eq_refl).
  - vm_compute. reflexivity.
  - reflexivity.
Defined.

(** X8: the create with retries extends the create without.  Take a
    client whose first answer to [Insert] is the same under the
    caller's context and under the context with the create timeout (the
    timeout does not cut that call).  When this answer is not the
    transient error, the create with retries makes that one call and
    gives the diagnostics and the state the earlier [Create] gives
    under the caller's context; when it is the transient error, the
    earlier [Create] reports it as an error at once. *)
Theorem Create_extends_legacy_Create srv tie ctx0 start diags data :
  diag.HasError diags = false ->
  let first := insert_at srv (context.WithTimeout ctx0 start (createTimeout data)) data start 0 in
  let old := legacy.Create srv ctx0 start (diags, without_timeouts data) in
  insert_at srv ctx0 data start 0 = first ->
  (checkErr (siteverification.err first) errTokenNotFound = false ->
   exists r,
     Create srv tie ctx0 start {| Get_ := (diags, data) |} = Some r /\
     attempts r = 1%nat /\ sleeps r = 0%nat /\
     Diagnostics (response r) = legacy.Diagnostics old /\
     option_map without_timeouts (State (response r)) = legacy.State old) /\
  (checkErr (siteverification.err first) errTokenNotFound = true ->
   legacy.State old = None /\
   legacy.Diagnostics old
   = diags ++ [client_error ("Unable to create verification, got error: %s",
                             [diag.OpError (siteverification.err first)])]).
Proof.
  intros Hd first old Hsame.
  assert (Hold : old = legacy.Create srv ctx0 start (diags, without_timeouts data))
    by reflexivity.
  unfold legacy.Create in Hold. rewrite Hd in Hold.
  cbn [without_timeouts legacy.Domain legacy.Token] in Hold.
  change (siteverification.Insert srv ctx0 start 0 verificationMethod _)
    with (insert_at srv ctx0 data start 0) in Hold.
  rewrite Hsame in Hold.
  split.
  - intros Hchk.
    eexists. split.
    + apply (Create_transition srv tie ctx0 start {| Get_ := (diags, data) |} diags data 0
               eq_refl Hd).
      * intros i Hi. lia.
      * exact Hchk.
    + cbn [attempts sleeps response]. split; [reflexivity|]. split; [reflexivity|].
      change (insert_nth srv (context.WithTimeout ctx0 start (createTimeout data))
                data start 0 0) with first.
      rewrite Hold. unfold create_end.
      destruct (errors.is_nil (siteverification.err first)); cbn [negb].
      * destruct (url.QueryUnescape _); split; reflexivity.
      * split; reflexivity.
  - intros Hchk. rewrite Hold.
    rewrite (checkErr_not_nil _ _ Hchk). cbn. split; reflexivity.
Qed.

(** X8 at work: a server error is reported alike by both. *)
Lemma Create_extends_legacy_Create_witness :
  let e := googleapiError 503 "Service Unavailable" nil_error in
  let srv := stub.failing 0 e e in
  let data := stub.model "example.com" timeouts.unset in
  exists r,
    Create srv (stub.always context.After) context.Background 0 (stub.request data) = Some r /\
    Diagnostics (response r)
    = legacy.Diagnostics
        (legacy.Create srv context.Background 0 ([], without_timeouts data)).
Proof.
  intros e srv data.
  destruct (proj1 (Create_extends_legacy_Create srv (stub.always context.After)
                     context.Background 0 [] data eq_refl eq_refl) eq_refl)
    as (r & Hr & _ & _ & Hdiag & _).
  exists r. split; [exact Hr|exact Hdiag].
Defined.

(** X9: the delete with retries extends the delete without, in the
    same way: for a client whose first answer to [Delete] is the same
    under the caller's context and under the context with the delete
    timeout. *)
Theorem Delete_extends_legacy_Delete srv tie ctx0 start diags data :
  diag.HasError diags = false ->
  let first := delete_at srv (context.WithTimeout ctx0 start (deleteTimeout data)) data start 0 in
  let old := legacy.Delete srv ctx0 start (diags, without_timeouts data) in
  delete_at srv ctx0 data start 0 = first ->
  (checkErr (siteverification.err first) errTokenExists = false ->
   exists r,
     Delete srv tie ctx0 start {| Get_ := (diags, data) |} = Some r /\
     attempts r = 1%nat /\ sleeps r = 0%nat /\
     Diagnostics (response r) = legacy.Diagnostics old /\
     option_map without_timeouts (State (response r)) = legacy.State old) /\
  (checkErr (siteverification.err first) errTokenExists = true ->
   legacy.Diagnostics old
   = diags ++ [client_error ("Unable to delete verification, got error: %s",
                             [diag.OpError (siteverification.err first)])]).
Proof.
  intros Hd first old Hsame.
  assert (Hold : old = legacy.Delete srv ctx0 start (diags, without_timeouts data))
    by reflexivity.
  unfold legacy.Delete in Hold. rewrite Hd in Hold.
  cbn [without_timeouts legacy.Id] in Hold.
  change (siteverification.Delete srv ctx0 start 0 _)
    with (delete_at srv ctx0 data start 0) in Hold.
  rewrite Hsame in Hold.
  split.
  - intros Hchk.
    destruct (errors.is_nil (siteverification.err first)) eqn:Hnil.
    + exists {| response := {| Diagnostics := diags; State := Some data |};
                returned_at := elapse start (siteverification.took first);
                attempts := 1; sleeps := 0; exit := ExitEnd |}.
      split.
      * apply (Delete_unfold srv tie ctx0 start {| Get_ := (diags, data) |} diags data 1 _
                 eq_refl Hd).
        cbn [Delete_loop].
        change (siteverification.Delete srv _ start 0 _) with first.
        rewrite Hnil. reflexivity.
      * rewrite Hold. cbn. repeat split.
    + eexists. split.
      * apply (Delete_permanent_error srv tie ctx0 start {| Get_ := (diags, data) |} diags data
                 eq_refl Hd Hnil Hchk).
      * rewrite Hold. cbn. repeat split.
  - intros Hchk. rewrite Hold.
    rewrite (checkErr_not_nil _ _ Hchk). cbn. reflexivity.
Qed.

(** X9 at work. *)
Lemma Delete_extends_legacy_Delete_witness :
  let srv := stub.flaky 0 0 stub.TokenNotFoundError stub.TokenStillPresentError
               "id" "example.com" "abc123" in
  let data := stub.model "example.com" timeouts.unset in
  exists r,
    Delete srv (stub.always context.After) context.Background 0 (stub.request data) = Some r /\
    Diagnostics (response r)
    = legacy.Diagnostics
        (legacy.Delete srv context.Background 0 ([], without_timeouts data)).
Proof.
  intros srv data.
  destruct (proj1 (Delete_extends_legacy_Delete srv (stub.always context.After)
                     context.Background 0 [] data eq_refl eq_refl) eq_refl)
    as (r & Hr & _ & _ & Hdiag & _).
  exists r. split; [exact Hr|exact Hdiag].
Defined.

(* ================================================================== *)
(** ** Further properties of the classification and of the decoding *)
(* ================================================================== *)

(** X10: wrapping does not change the classification.  An error wrapped
    any number of times with [%w] is retried exactly when the error
    inside is; and what an API error itself wraps is never looked at. *)
Theorem checkErr_ignores_wrapping (msgs : list string) (e : error) (msg : string) :
  checkErr (wrap_all msgs e) msg = checkErr e msg /\
  (forall c m inner,
     e = googleapiError c m inner ->
     checkErr (wrap_all msgs e) msg = checkErr (googleapiError c m nil_error) msg).
Proof.
  assert (H : checkErr (wrap_all msgs e) msg = checkErr e msg).
  { induction msgs as [|x msgs IH]; [reflexivity|]. exact IH. }
  split; [exact H|]. intros c m inner ->. rewrite H. reflexivity.
Qed.

(** X10 at work: the transient error stays transient under two layers
    of wrapping, with a cause attached. *)
Lemma checkErr_ignores_wrapping_witness :
  checkErr (wrap_all ["insert failed"; "googleapi"]
              (googleapiError 400 errTokenNotFound context_Canceled)) errTokenNotFound = true.
Proof.
  rewrite (proj2 (checkErr_ignores_wrapping ["insert failed"; "googleapi"]
                    (googleapiError 400 errTokenNotFound context_Canceled) errTokenNotFound)
             400 errTokenNotFound context_Canceled eq_refl).
  reflexivity.
Defined.

(** X11: an API error is transient exactly when its code is 400 and its
    message has the expected text somewhere inside, whatever comes
    before and after it. *)
Theorem checkErr_by_code_and_substring (c : Z) (m : string) (inner : error) (msg : string) :
  checkErr (googleapiError c m inner) msg = true <->
  c = 400 /\ exists a b, m = (a ++ msg ++ b)%string.
Proof.
  unfold checkErr. cbn [errors.As].
  rewrite andb_true_iff, Z.eqb_eq, Contains_spec. reflexivity.
Qed.

Lemma string_app_length (a b : string) :
  String.length (a ++ b)%string = (String.length a + String.length b)%nat.
Proof. induction a as [|c a IH]; simpl; auto. Qed.

(** Decoding never lengthens, and keeps the length without escapes. *)
Lemma decode_length mode (s : string) :
  (String.length (url.decode mode s) <= String.length s)%nat /\
  (no_percent s = true -> String.length (url.decode mode s) = String.length s).
Proof.
  induction s as [|c s IH IH2] using string_ind2.
  - split; reflexivity.
  - cbn [url.decode no_percent]. destruct (Ascii.eqb c "%") eqn:Ep.
    + split; [|discriminate].
      destruct s as [|a [|b s']].
      * cbn. lia.
      * destruct IH as [IH _]. cbn [String.length] in *. lia.
      * destruct (IH2 a b s' eq_refl) as [IH2' _]. cbn [String.length] in *. lia.
    + destruct IH as [IHa IHb]. cbn [negb andb].
      destruct (Ascii.eqb c "+"); [destruct mode|]; cbn [String.length]; split;
        try lia; intros H; rewrite (IHb H); reflexivity.
Qed.

(** Without ['%'] and ['+'] there is nothing to decode. *)
Lemma QueryUnescape_plain (s : string) :
  no_percent s = true -> no_plus s = true -> url.QueryUnescape s = inl s.
Proof.
  intros Hp Hq. rewrite (QueryUnescape_no_percent s Hp). f_equal.
  clear Hp. induction s as [|c s IH]; [reflexivity|].
  cbn in Hq |- *. apply andb_true_iff in Hq as [Hc Hs].
  apply negb_true_iff in Hc. unfold plus_to_space. rewrite Hc, (IH Hs). reflexivity.
Qed.

Lemma QueryUnescape_length (s v : string) :
  url.QueryUnescape s = inl v ->
  (String.length v <= String.length s)%nat /\
  (no_percent s = true -> String.length v = String.length s).
Proof.
  unfold url.QueryUnescape, url.unescape.
  destruct (url.check_escapes s); [discriminate|].
  intros [= <-]. apply decode_length.
Qed.

(** X12: the identifier a create stores is never longer than the
    identifier [Insert] returned: it has the same length when that one
    holds no ['%'], and is that very identifier when it holds neither
    ['%'] nor ['+']. *)
Theorem Create_stored_id_is_no_longer srv tie ctx0 start req r m :
  Create srv tie ctx0 start req = Some r ->
  State (response r) = Some m ->
  exists t k,
    let call := insert_at srv (context.WithTimeout ctx0 start (createTimeout (snd (Get_ req))))
                  (snd (Get_ req)) t k in
    let rid := siteverification.Id (siteverification.result call) in
    siteverification.err call = nil_error /\
    (String.length (types.Value (Id m)) <= String.length rid)%nat /\
    (no_percent rid = true -> String.length (types.Value (Id m)) = String.length rid) /\
    (no_percent rid = true -> no_plus rid = true -> types.Value (Id m) = rid).
Proof.
  intros Hr Hm.
  unfold Create in Hr. destruct (Get_ req) as [diags data]. cbn [snd].
  destruct (diag.HasError diags); [injection Hr as <-; discriminate Hm|].
  apply Create_loop_state in Hr as [[Hnone _]|(_ & _ & t & k & id & H1 & H2 & H3)];
    [congruence|].
  rewrite H3 in Hm. injection Hm as <-. cbn [Id types.Value types.StringValue].
  exists t, k. cbn zeta. split; [exact H1|].
  destruct (QueryUnescape_length _ _ H2) as [Hle Heq].
  split; [exact Hle|]. split; [exact Heq|].
  intros Hp Hq. rewrite (QueryUnescape_plain _ Hp Hq) in H2. congruence.
Qed.

(** X12 at work. *)
Lemma Create_stored_id_is_no_longer_witness :
  exists r m,
    Create (stub.flaky 0 0 stub.TokenNotFoundError stub.TokenStillPresentError
              "a%3Db+c" "example.com" "abc123")
           (stub.always context.After) context.Background 0
           (stub.request (stub.model "example.com" timeouts.unset)) = Some r /\
    State (response r) = Some m /\
    (String.length (types.Value (Id m)) <= 7)%nat.
Proof.
  eexists. eexists. split; [vm_compute; reflexivity|]. split; [reflexivity|].
  destruct (Create_stored_id_is_no_longer
              (stub.flaky 0 0 stub.TokenNotFoundError stub.TokenStillPresentError
                 "a%3Db+c" "example.com" "abc123")
              (stub.always context.After) context.Background 0
              (stub.request (stub.model "example.com" timeouts.unset)) _ _
              ltac:(vm_compute; reflexivity) eq_refl) as (t & k & _ & Hle & _).
  exact Hle.
Defined.

(* ================================================================== *)
(** ** Further properties of the data sources and of the contexts *)
(* ================================================================== *)

(** X13: the read of the DNS token data source makes one [GetToken]
    call for the domain under its read timeout.  When the call succeeds
    the record is a TXT record named after the domain, with the token as
    value and the domain as id; when it fails there is a "Client Error"
    and no record.  Under a client that honours its context the read
    returns no later than the timeout after it started. *)
Theorem DNSToken_Read_record srv ctx start data :
  let out := datasource.DNSToken_Read srv ctx start data in
  let call := siteverification.GetToken srv
                (context.WithTimeout ctx start (datasource.readTimeout data)) start
                (datasource.gettoken (types.Value (datasource.Domain data))) in
  (siteverification.err call = nil_error ->
   datasource.Diagnostics out = [] /\
   option_map computed_fields (datasource.State out)
   = Some (types.StringValue "TXT", datasource.Domain data,
           types.StringValue (siteverification.Token (siteverification.result call)),
           datasource.Domain data)) /\
  (siteverification.err call <> nil_error ->
   datasource.State out = None /\
   datasource.Diagnostics out
   = [client_error ("Unable to read DNS Token, got error: %s",
                    [diag.OpError (siteverification.err call)])]) /\
  (honours srv ->
   datasource.returned_at out <= Z.max start (start + datasource.readTimeout data)).
Proof.
  intros out call. subst out. unfold datasource.DNSToken_Read. fold call.
  destruct (errors.is_nil (siteverification.err call)) eqn:Hnil; cbn [negb].
  - apply is_nil_true in Hnil. cbn. repeat split; try congruence.
    intros (_ & _ & _ & Htok).
    destruct (WithTimeout_deadline ctx start (datasource.readTimeout data)) as (t & Ht & Hle).
    pose proof (Htok _ t start (datasource.gettoken (types.Value (datasource.Domain data))) Ht).
    fold call in H. lia.
  - assert (siteverification.err call <> nil_error)
      by (intros E; apply is_nil_true in E; congruence).
    cbn. repeat split; try congruence.
    intros (_ & _ & _ & Htok).
    destruct (WithTimeout_deadline ctx start (datasource.readTimeout data)) as (t & Ht & Hle).
    pose proof (Htok _ t start (datasource.gettoken (types.Value (datasource.Domain data))) Ht).
    fold call in H0. lia.
Qed.

(** X13 at work: a client that would answer after 100 seconds is cut at
    the default 60. *)
Lemma DNSToken_Read_record_witness :
  let data := {| datasource.Domain := types.StringValue "example.com";
                 datasource.RecordType := types.StringValue "";
                 datasource.RecordName := types.StringValue "";
                 datasource.RecordValue := types.StringValue "";
                 datasource.ID := types.StringValue "";
                 datasource.Timeouts := timeouts.unset |} in
  datasource.returned_at
    (datasource.DNSToken_Read
       (stub.honouring (stub.flaky 0 100000000000 stub.TokenNotFoundError
                          stub.TokenStillPresentError "id" "example.com" "abc123"))
       context.Background 0 data)
  <= 60 * Second.
Proof.
  intros data.
  exact (proj2 (proj2 (DNSToken_Read_record
                         (stub.honouring (stub.flaky 0 100000000000 stub.TokenNotFoundError
                                            stub.TokenStillPresentError "id" "example.com"
                                            "abc123"))
                         context.Background 0 data))
           (honouring_honours _)).
Defined.

(** X14: the read of the domain data source is blind to its timeout and
    to the caller's context.  Its one [GetToken] call is issued under
    the background context, so the same request gives the same
    diagnostics, the same record and the same return instant whatever
    timeout is configured and whatever context the caller hands in. *)
Theorem Domain_Read_ignores_timeout_and_context srv ctx1 ctx2 start data (t' : timeouts.Object) :
  let data' := {| datasource.Domain := datasource.Domain data;
                  datasource.RecordType := datasource.RecordType data;
                  datasource.RecordName := datasource.RecordName data;
                  datasource.RecordValue := datasource.RecordValue data;
                  datasource.ID := datasource.ID data;
                  datasource.Timeouts := t' |} in
  let out1 := datasource.Domain_Read srv ctx1 start data in
  let out2 := datasource.Domain_Read srv ctx2 start data' in
  datasource.call_ctx out1 = context.Background /\
  datasource.Diagnostics out1 = datasource.Diagnostics out2 /\
  datasource.returned_at out1 = datasource.returned_at out2 /\
  option_map computed_fields (datasource.State out1)
  = option_map computed_fields (datasource.State out2).
Proof.
  intros data' out1 out2. subst out1 out2 data'. unfold datasource.Domain_Read.
  cbn [datasource.ID].
  destruct (negb (errors.is_nil _)); cbn; repeat split.
Qed.

(** X15: the caller's context stops the retry loops.  Under a client
    that honours its context, a create or a delete handed a context
    that is done at [t0] returns no later than [t0] (or at once, when
    [t0] is past), however long its own timeout. *)
Theorem callers_context_stops_the_loops srv tie ctx0 start req t0 :
  honours srv ->
  context.done_at ctx0 = Some t0 ->
  (exists r, Create srv tie ctx0 start req = Some r /\ returned_at r <= Z.max start t0) /\
  (exists r, Delete srv tie ctx0 start req = Some r /\ returned_at r <= Z.max start t0).
Proof.
  intros Hh Ht0. split.
  - destruct (Create_returns srv tie ctx0 start req) as [r Hr]. exists r. split; [exact Hr|].
    unfold Create in Hr. destruct (Get_ req) as [diags data].
    destruct (diag.HasError diags).
    + injection Hr as <-. cbn. lia.
    + assert (Ht : context.done_at (context.WithTimeout ctx0 start (createTimeout data))
                   = Some (Z.min t0 (start + createTimeout data)))
        by (unfold context.WithTimeout; cbn; now rewrite Ht0).
      apply (Create_loop_returns_in_time _ _ _ _ _ _ _ Hh Ht) in Hr. lia.
  - destruct (Delete_returns srv tie ctx0 start req) as [r Hr]. exists r. split; [exact Hr|].
    unfold Delete in Hr. destruct (Get_ req) as [diags data].
    destruct (diag.HasError diags).
    + injection Hr as <-. cbn. lia.
    + assert (Ht : context.done_at (context.WithTimeout ctx0 start (deleteTimeout data))
                   = Some (Z.min t0 (start + deleteTimeout data)))
        by (unfold context.WithTimeout; cbn; now rewrite Ht0).
      apply (Delete_loop_returns_in_time _ _ _ _ _ _ _ Hh Ht) in Hr. lia.
Qed.

(** X15 at work: a caller that gives up after 10 seconds. *)
Lemma callers_context_stops_the_loops_witness :
  exists r,
    Delete (stub.honouring (stub.failing 1000000000 stub.TokenNotFoundError
                              stub.TokenStillPresentError))
           (stub.always context.After) {| context.done_at := Some (10 * Second) |} 0
           (stub.request (stub.model "example.com" timeouts.unset)) = Some r /\
    returned_at r <= 10 * Second.
Proof.
  destruct (proj2 (callers_context_stops_the_loops
                     (stub.honouring (stub.failing 1000000000 stub.TokenNotFoundError
                                        stub.TokenStillPresentError))
                     (stub.always context.After) {| context.done_at := Some (10 * Second) |} 0
                     (stub.request (stub.model "example.com" timeouts.unset)) (10 * Second)
                     (honouring_honours _) eq_refl)) as (r & Hr & Hle).
  exists r. split; [exact Hr|exact Hle].
Defined.

(* ================================================================== *)
(** ** The claims in their own words *)
(* ================================================================== *)

(** [checkErr] accepts exactly the errors whose API error, the one
    [errors.As] finds, has code 400 and a message containing the text. *)
Lemma checkErr_spec (e : error) (msg : string) :
  checkErr e msg = true <-> api_error_400_with msg e.
Proof.
  rewrite checkErr_first_api. unfold api_error_400_with, contains_text. split.
  - intros (c & m & inner & H & -> & Hc). apply Contains_spec in Hc. eauto.
  - intros (m & inner & H & Hc). apply Contains_spec in Hc. eauto 6.
Qed.






(** C2, as the claim words it, fails: under the default timeout, against
    a client that always answers the token-still-present error after one
    second, the fifth answer is that error and yet no sixth [Delete]
    attempt follows it, because the context is done during the backoff. *)
Lemma Delete_last_transient_answer_is_not_retried :
  let srv := stub.honouring (stub.failing 1000000000 stub.TokenNotFoundError
                               stub.TokenStillPresentError) in
  let data := stub.model "example.com" timeouts.unset in
  let ctx := context.WithTimeout context.Background 0 (deleteTimeout data) in
  siteverification.err (delete_nth srv ctx data 0 0 4) = stub.TokenStillPresentError /\
  exists r,
    Delete srv (stub.always context.After) context.Background 0 (stub.request data) = Some r /\
    attempts r = 5%nat.
Proof.
  intros srv data ctx. split; [vm_compute; reflexivity|].
  eexists. split; [vm_compute; reflexivity|reflexivity].
Qed.

(** C2 (amended): every delete whose prior state decodes runs as
    follows.  Each of the first [k] answers of [Delete] is the
    token-still-present error (an API error with code 400 whose message
    contains that text) and is followed by a backoff of 60 seconds and
    another attempt.  Attempt [k] is the last: its answer carries no
    error, and the delete ends without diagnostic; or it carries an
    error that is not the token-still-present error, and the delete
    ends with that error in a "Client Error" diagnostic; or it is the
    token-still-present error again and the context is done before the
    backoff ends, after which no attempt is made. *)
Theorem Delete_transitions srv tie ctx0 start req :
  diag.HasError (fst (Get_ req)) = false ->
  let diags := fst (Get_ req) in
  let data := snd (Get_ req) in
  let ctx := context.WithTimeout ctx0 start (deleteTimeout data) in
  exists r k,
    Delete srv tie ctx0 start req = Some r /\
    attempts r = S k /\ sleeps r = k /\
    start + Z.of_nat k * (60 * Second) <= returned_at r /\
    (forall i, (i < k)%nat ->
       api_error_400_with errTokenExists
         (siteverification.err (delete_nth srv ctx data start 0 i)) /\
       delete_backoff_fits srv tie ctx data start 0 i) /\
    let last := delete_nth srv ctx data start 0 k in
    let t := elapse (delete_clock srv ctx data start 0 k) (siteverification.took last) in
    (siteverification.err last = nil_error /\
     Diagnostics (response r) = diags /\ exit r = ExitEnd /\ returned_at r = t)
    \/
    (siteverification.err last <> nil_error /\
     ~ api_error_400_with errTokenExists (siteverification.err last) /\
     Diagnostics (response r)
     = diag.AddError diags "Client Error"
         ("Unable to delete verification, got error: %s",
          [diag.OpError (siteverification.err last)]) /\
     exit r = ExitClientError /\ returned_at r = t)
    \/
    (api_error_400_with errTokenExists (siteverification.err last) /\
     context.select (tie k) ctx t sleepSeconds = context.Done).
Proof.
  intros Hd diags data ctx.
  destruct (Delete_returns srv tie ctx0 start req) as [r Hr].
  exists r. pose proof Hr as Hrun. unfold Delete in Hr. subst diags data ctx.
  destruct (Get_ req) as [diags data]. cbn [fst snd] in *.
  rewrite Hd in Hr.
  pose proof (Delete_loop_spacing _ _ _ _ _ _ _ _ _ Hr) as (_ & _ & Hpace).
  destruct (Delete_loop_shape _ _ _ _ _ _ _ _ _ Hr) as (k & H1 & H2 & H3 & _ & H5).
  cbn [Nat.add] in *. rewrite H3 in Hpace. change sleepSeconds with (60 * Second) in Hpace.
  exists k. split; [exact Hrun|]. split; [exact H2|]. split; [exact H3|].
  split; [lia|]. split.
  - intros i Hi. destruct (H1 i Hi) as [Ha Hb]. split; [|exact Hb].
    apply checkErr_spec. exact Ha.
  - cbn zeta in *.
    destruct H5 as [(Ha & Hb & Hc & He)|[(Ha & Hb & Hc & He & Hf)|(Ha & Hb & _)]].
    + left. auto.
    + right. left. repeat split; auto.
      intros H. apply checkErr_spec in H. congruence.
    + right. right. split; [|exact Hb]. apply checkErr_spec. exact Ha.
Qed.

(** C2 at work: one token-still-present answer, waited out, then
    success. *)
Lemma Delete_transitions_witness :
  exists r k,
    Delete (stub.flaky 1 0 stub.TokenNotFoundError stub.TokenStillPresentError
              "id" "example.com" "abc123")
           (stub.always context.After) context.Background 0
           (stub.request (stub.model "example.com" timeouts.unset)) = Some r /\
    attempts r = S k /\ sleeps r = k /\
    0 + Z.of_nat k * (60 * Second) <= returned_at r.
Proof.
  destruct (Delete_transitions
              (stub.flaky 1 0 stub.TokenNotFoundError stub.TokenStillPresentError
                 "id" "example.com" "abc123")
              (stub.always context.After) context.Background 0
              (stub.request (stub.model "example.com" timeouts.unset)) eq_refl)
    as (r & k & Hr & Ha & Hs & Ht & _).
  exists r, k. repeat split; assumption.
Defined.

(** C8: importing the identifier [dns://] followed by a domain, against
    a client whose [Get] on the identifier succeeds and whose
    [GetToken] for the domain succeeds, yields exactly the record whose
    id is the identifier, whose domain is the identifier without the
    prefix and whose token is the fetched value.  For
    [dns://example.com] and the token [abc123] this is the record of the
    claim. *)
Theorem ImportState_round_trip srv ctx start (domain : string) :
  let ID := ("dns://" ++ domain)%string in
  let get := siteverification.Get srv ctx start ID in
  let gettoken := siteverification.GetToken srv ctx
                    (elapse start (siteverification.took get)) (import_gettoken domain) in
  siteverification.err get = nil_error ->
  siteverification.err gettoken = nil_error ->
  response (ImportState srv ctx start ID)
  = {| Diagnostics := [];
       State := Some {| Id := types.StringValue ID;
                        Domain := types.StringValue domain;
                        Token := types.StringValue
                                   (siteverification.Token (siteverification.result gettoken));
                        Timeouts := timeouts.unset |} |}.
Proof.
  intros ID get gettoken Hget Htok.
  rewrite ImportState_cases. unfold ID at 2 3. rewrite TrimPrefix_app.
  fold ID. fold get. fold gettoken. rewrite Hget, Htok. reflexivity.
Qed.

(** C8 at work: the record of the claim. *)
Lemma ImportState_round_trip_witness :
  response
    (ImportState (stub.flaky 0 7 stub.TokenNotFoundError stub.TokenStillPresentError
                    "id" "example.com" "abc123")
                 context.Background 0 "dns://example.com")
  = {| Diagnostics := [];
       State := Some {| Id := types.StringValue "dns://example.com";
                        Domain := types.StringValue "example.com";
                        Token := types.StringValue "abc123";
                        Timeouts := timeouts.unset |} |}.
Proof.
  exact (ImportState_round_trip
           (stub.flaky 0 7 stub.TokenNotFoundError stub.TokenStillPresentError
              "id" "example.com" "abc123")
           context.Background 0 "example.com" eq_refl eq_refl).
Defined.

(** [ishex] accepts exactly the hexadecimal digits. *)
Lemma ishex_spec (c : ascii) : url.ishex c = is_hex_digit c.
Proof.
  destruct c as [b0 b1 b2 b3 b4 b5 b6 b7].
  destruct b0, b1, b2, b3, b4, b5, b6, b7; reflexivity.
Qed.

Lemma every_percent_escapes_cons (c : ascii) (s : string) :
  Ascii.eqb c "%" = false ->
  (every_percent_escapes (String c s) <-> every_percent_escapes s).
Proof.
  intros Hc. split.
  - intros H pre post E. apply (H (String c pre) post). cbn. now rewrite E.
  - intros H pre post E. destruct pre as [|p pre]; cbn in E.
    + injection E as -> _. rewrite Ascii.eqb_refl in Hc. discriminate.
    + injection E as _ E. exact (H pre post E).
Qed.

Lemma every_percent_escapes_skip (a b : ascii) (s : string) :
  is_hex_digit a = true -> is_hex_digit b = true ->
  (every_percent_escapes (String "%" (String a (String b s))) <-> every_percent_escapes s).
Proof.
  intros Ha Hb. split.
  - intros H pre post E.
    apply (H (String "%" (String a (String b pre))) post). cbn. now rewrite E.
  - intros H pre post E. destruct pre as [|p0 [|p1 [|p2 pre]]]; cbn in E.
    + injection E as <-. exists a, b, s. auto.
    + injection E as _ -> _. discriminate Ha.
    + injection E as _ _ -> _. discriminate Hb.
    + injection E as _ _ _ E. exact (H pre post E).
Qed.

(** The first loop of [unescape] passes exactly the strings in which
    every ['%'] is followed by two hexadecimal digits. *)
Lemma check_escapes_spec (s : string) :
  url.check_escapes s = None <-> every_percent_escapes s.
Proof.
  induction s as [|c s IH IH2] using string_ind2.
  - split; [|reflexivity]. intros _ pre post E. destruct pre; discriminate E.
  - cbn [url.check_escapes]. destruct (Ascii.eqb c "%") eqn:Ep.
    + apply Ascii.eqb_eq in Ep. subst c.
      destruct s as [|a [|b s']].
      * split; [discriminate|]. intros H.
        destruct (H EmptyString EmptyString eq_refl) as (a & b & rest & E & _). discriminate E.
      * split; [discriminate|]. intros H.
        destruct (H EmptyString (String a EmptyString) eq_refl) as (x & y & rest & E & _).
        discriminate E.
      * rewrite !ishex_spec.
        destruct (is_hex_digit a) eqn:Ha; [destruct (is_hex_digit b) eqn:Hb|]; cbn [andb].
        -- rewrite (IH2 a b s' eq_refl). symmetry. apply every_percent_escapes_skip; assumption.
        -- split; [discriminate|]. intros H.
           destruct (H EmptyString (String a (String b s')) eq_refl)
             as (x & y & rest & E & Hx & Hy).
           injection E as <- <- _. congruence.
        -- split; [discriminate|]. intros H.
           destruct (H EmptyString (String a (String b s')) eq_refl)
             as (x & y & rest & E & Hx & Hy).
           injection E as <- <- _. congruence.
    + rewrite IH. symmetry. apply every_percent_escapes_cons. exact Ep.
Qed.

(** C10: when [Insert] succeeds with an identifier in which every ['%']
    is followed by two hexadecimal digits, the create loop stores the
    percent-decoding of the identifier in which every ['+'] was first
    replaced by a space (so a ['+'] becomes a space, as query unescaping
    has it, while [%2B] still decodes to ['+']); without any ['%'] that
    is the identifier with its ['+'] replaced.  When some ['%'] is not
    followed by two hexadecimal digits, the loop returns with a "Client
    Error" diagnostic for the escape and writes no state. *)
Theorem Create_loop_decodes_id srv tie ctx data diags now n fuel :
  let call := insert_at srv ctx data now n in
  let rid := siteverification.Id (siteverification.result call) in
  let stored (id : string) :=
    Some {| response :=
              {| Diagnostics := diags;
                 State := Some {| Domain := Domain data; Token := Token data;
                                  Id := types.StringValue id; Timeouts := Timeouts data |} |};
            returned_at := elapse now (siteverification.took call);
            attempts := S n; sleeps := n; exit := ExitEnd |} in
  siteverification.err call = nil_error ->
  (every_percent_escapes rid ->
   Create_loop srv tie (S fuel) ctx data diags now n
   = stored (url.decode url.encodePathSegment (spaces_for_plus rid))) /\
  (no_percent rid = true ->
   Create_loop srv tie (S fuel) ctx data diags now n = stored (spaces_for_plus rid)) /\
  (~ every_percent_escapes rid ->
   exists bad,
     Create_loop srv tie (S fuel) ctx data diags now n
     = Some {| response :=
                 {| Diagnostics :=
                      diag.AddError diags "Client Error"
                        ("failed to urldecode id %s, %s",
                         [diag.OpString rid; diag.OpError (EscapeError bad)]);
                    State := None |};
               returned_at := elapse now (siteverification.took call);
               attempts := S n; sleeps := n; exit := ExitUrlDecode |}).
Proof.
  intros call rid stored Herr.
  destruct (Create_loop_query_unescapes_id srv tie ctx data diags now n fuel Herr)
    as (H1 & H2 & H3).
  split; [|split].
  - intros Hok. apply H1. apply check_escapes_spec. exact Hok.
  - exact H2.
  - intros Hbad. fold call in H3. fold rid in H3.
    destruct (url.check_escapes rid) as [bad|] eqn:E.
    + exists bad. apply H3. reflexivity.
    + exfalso. apply Hbad. apply check_escapes_spec. exact E.
Qed.

(** C10 at work: the identifier [a+b%2Bc] is stored as [a b+c], the
    identifier [a+b] as [a b]; [a+b%zz], whose escape has no
    hexadecimal digits, and [a+b%2], whose escape is cut short, are
    refused. *)
Lemma Create_loop_decodes_id_witness :
  let client (rid : string) :=
    stub.flaky 0 0 stub.TokenNotFoundError stub.TokenStillPresentError rid "example.com" "abc" in
  let data := stub.model "example.com" timeouts.unset in
  let run (rid : string) :=
    Create_loop (client rid) (stub.always context.After) 1 context.Background data [] 0 0 in
  let id_of (r : option Run) :=
    match r with
    | Some r => match State (response r) with
                | Some m => Some (types.Value (Id m))
                | None => None
                end
    | None => None
    end in
  id_of (run "a+b%2Bc") = Some "a b+c" /\
  id_of (run "a+b") = Some "a b" /\
  id_of (run "a+b%zz") = None /\
  id_of (run "a+b%2") = None.
Proof.
  intros client data run id_of. unfold run. split; [|split; [|split]].
  - rewrite (proj1 (Create_loop_decodes_id (client "a+b%2Bc")
                      (stub.always context.After) context.Background data [] 0 0%nat 0%nat
                      eq_refl) (proj1 (check_escapes_spec "a+b%2Bc") eq_refl)).
    reflexivity.
  - rewrite (proj1 (proj2 (Create_loop_decodes_id (client "a+b")
                      (stub.always context.After) context.Background data [] 0 0%nat 0%nat
                      eq_refl)) eq_refl).
    reflexivity.
  - assert (Hbad : ~ every_percent_escapes "a+b%zz").
    { intros H. destruct (H "a+b" "zz" eq_refl) as (a & b & rest & E & Ha & _).
      injection E as <- _. discriminate Ha. }
    destruct (proj2 (proj2 (Create_loop_decodes_id (client "a+b%zz")
                      (stub.always context.After) context.Background data [] 0 0%nat 0%nat
                      eq_refl)) Hbad) as (bad & Hrun).
    rewrite Hrun. reflexivity.
  - assert (Hbad : ~ every_percent_escapes "a+b%2").
    { intros H. destruct (H "a+b" "2" eq_refl) as (a & b & rest & E & _).
      discriminate E. }
    destruct (proj2 (proj2 (Create_loop_decodes_id (client "a+b%2")
                      (stub.always context.After) context.Background data [] 0 0%nat 0%nat
                      eq_refl)) Hbad) as (bad & Hrun).
    rewrite Hrun. reflexivity.
Defined.
